(** * Lakner inflation analysis: the index and reconciliation arithmetic

    A shallow embedding of [src/inflation_analysis.py].

    - Numbers are IEEE 754 binary64 values, as the columns of the pandas
      frames are ([float64]); they are Rocq's primitive [float], so every
      definition below runs on concrete data.
    - The [jahr] column is integral ([int64]) and is a [Z] here.  Where the
      code compares the column with an integer ([base_year], the literals
      2020 and 2025, the key of a merge) the comparison is on integers.
      Where it compares the column with the year of a row that [iterrows]
      handed out, that year is a float64, the column is converted to
      float64, and the comparison is on floats: [float64_of_int].
    - A [DataFrame] is the list of its rows, in row order; each frame the
      script builds has a fixed set of columns and gets a record of its own.
    - An exception is a [Raise] result.  The only exception the arithmetic
      can raise is [IndexError], from [.iloc[0]] on an empty selection:
      float64 division by zero returns [inf] or [nan] and raises nothing.
    - [calculate_inflation_rates] assigns columns to the frame it is given;
      the object store at the end of the definitions makes that visible. *)

From Stdlib Require Import ZArith List Bool Lia Sorted.
From Stdlib Require Import Floats.
Import ListNotations.

Local Open Scope float_scope.

(** Decimal literals are rounded to the nearest binary64 value, as Python
    rounds them. *)
#[local] Set Warnings "-inexact-float".

(** ** Exceptions *)

(** [IndexError] is what [.iloc[0]] raises on an empty selection (the
    specification calls it DataError).  [ZeroDivisionError] is Python's
    division error (the specification's DivisionError); it is listed so that
    statements can speak about it, and no operation below raises it.
    [KeyError] is raised by a column access on a frame that lacks the column;
    it occurs only in the object-store layer, where it also stands for a
    call on frames of a shape that [main] never passes. *)
Inductive PyError : Set :=
| IndexError
| ZeroDivisionError
| KeyError.

Inductive result (A : Type) : Type :=
| Ok (a : A)
| Raise (e : PyError).

Arguments Ok {A} a.
Arguments Raise {A} e.

Definition bind {A B : Type} (c : result A) (k : A -> result B) : result B :=
  match c with
  | Ok a => k a
  | Raise e => Raise e
  end.

Notation "x <- c ;; k" := (bind c (fun x => k))
  (at level 61, c at next level, right associativity).

(** ** The frames *)

(** [df] as [load_data] returns it: one row per year with the nominal and the
    real revenue. *)
Module Umsatz.
Record t : Set := mk {
  jahr : Z;
  umsatz_nominal : float;
  umsatz_real : float
}.
End Umsatz.

(** [df] after [calculate_inflation_rates]: the three columns above and the
    four the function assigns. *)
Module Lakner.
Record t : Set := mk {
  jahr : Z;
  umsatz_nominal : float;
  umsatz_real : float;
  preis_ratio : float;
  preisindex : float;
  inflation_kumulativ : float;
  inflation_jaehrlich : float
}.
End Lakner.

(** [df_nominal = df[['jahr', 'umsatz_nominal']]]. *)
Module Nominal.
Record t : Set := mk {
  jahr : Z;
  umsatz_nominal : float
}.
End Nominal.

(** [df_destatis]: the externally supplied annual rates. *)
Module Destatis.
Record t : Set := mk {
  jahr : Z;
  inflation_rate_jahr : float
}.
End Destatis.

(** [result_df] of [calculate_real_umsatz_with_destatis]. *)
Module Real.
Record t : Set := mk {
  jahr : Z;
  umsatz_nominal : float;
  umsatz_real_destatis : float;
  preisindex_destatis : float;
  inflation_kumulativ_destatis : float
}.
End Real.

(** [df_combined] after the merge in [main]. *)
Module Combined.
Record t : Set := mk {
  jahr : Z;
  umsatz_nominal : float;
  umsatz_real_destatis : float;
  preisindex_destatis : float;
  inflation_kumulativ_destatis : float;
  umsatz_real : float;
  preisindex : float;
  inflation_kumulativ : float
}.
End Combined.

(** ** pandas idioms *)

(** [s.iloc[0]]: the first element, [IndexError] when there is none. *)
Definition iloc0 {A : Type} (s : list A) : result A :=
  match s with
  | [] => Raise IndexError
  | x :: _ => Ok x
  end.

(** [s.ffill()]: a missing value takes the last value present before it;
    missing values at the start stay missing. *)
Fixpoint ffill_from (last : float) (s : list float) : list float :=
  match s with
  | [] => []
  | x :: rest =>
      let v := if is_nan x then last else x in
      v :: ffill_from v rest
  end.

Definition ffill (s : list float) : list float := ffill_from nan s.

(** [s / s.shift(1) - 1]: the shifted series starts with a missing value, so
    the first entry is [x / nan - 1]. *)
Fixpoint change_from (prev : float) (s : list float) : list float :=
  match s with
  | [] => []
  | x :: rest => (x / prev - 1) :: change_from x rest
  end.

(** [s.pct_change()] with its defaults: pandas 2 forward-fills [s] and then
    takes [s / s.shift(1) - 1].  (pandas 3 leaves the filling out; on a
    series without [nan] the two agree.) *)
Definition pct_change (s : list float) : list float := change_from nan (ffill s).

(** A float that is neither zero, nor infinite, nor [nan]. *)
Definition finite_nonzero (x : float) : bool :=
  match Prim2SF x with
  | S754_finite _ _ _ => true
  | _ => false
  end.

(** A float that is infinite or [nan]. *)
Definition infinite_or_nan (x : float) : bool :=
  match Prim2SF x with
  | S754_infinity _ | S754_nan => true
  | _ => false
  end.

(** A column of [int64] converted to [float64], as numpy converts it for a
    comparison with a float: the nearest float, ties to the even mantissa.
    Integers up to 2^53 in magnitude are kept as they are; beyond, several
    integers share a float. *)
Definition float64_of_int (z : Z) : float :=
  SF2Prim (binary_normalize prec emax z 0 false).

(** Two years that the float64 comparison takes for the same. *)
Definition same_year (a b : Z) : bool :=
  float64_of_int a =? float64_of_int b.

(** The years that float64 keeps apart from one another. *)
Definition float64_exact (y : Z) : Prop := (Z.abs y < 2 ^ 53)%Z.

(** ** [calculate_inflation_rates] *)

(** The frame with the four assigned columns put next to the three it had. *)
Fixpoint with_columns (df : list Umsatz.t)
    (preis_ratio preisindex inflation_kumulativ inflation_jaehrlich : list float)
    : list Lakner.t :=
  match df, preis_ratio, preisindex, inflation_kumulativ, inflation_jaehrlich with
  | r :: df', q :: qs, p :: ps, k :: ks, j :: js =>
      Lakner.mk (Umsatz.jahr r) (Umsatz.umsatz_nominal r) (Umsatz.umsatz_real r) q p k j
      :: with_columns df' qs ps ks js
  | _, _, _, _, _ => []
  end.

(** The content of the frame the function returns. *)
Definition calculate_inflation_rates (df : list Umsatz.t) (base_year : Z)
    : result (list Lakner.t) :=
  base_row <- iloc0 (filter (fun r => Z.eqb (Umsatz.jahr r) base_year) df) ;;
  let base_ratio := Umsatz.umsatz_nominal base_row / Umsatz.umsatz_real base_row in
  let preis_ratio := map (fun r => Umsatz.umsatz_nominal r / Umsatz.umsatz_real r) df in
  let preisindex := map (fun q => q / base_ratio) preis_ratio in
  let inflation_kumulativ := map (fun p => (p - 1) * 100) preisindex in
  let inflation_jaehrlich := map (fun c => c * 100) (pct_change preisindex) in
  Ok (with_columns df preis_ratio preisindex inflation_kumulativ inflation_jaehrlich).

(** The same frame read row by row: [base_ratio] is the ratio of the base
    row, [last] the forward-filled price index of the row before ([nan] for
    the first row). *)
Definition lakner_row (base_ratio last : float) (r : Umsatz.t) : Lakner.t :=
  let preis_ratio := Umsatz.umsatz_nominal r / Umsatz.umsatz_real r in
  let preisindex := preis_ratio / base_ratio in
  let filled := if is_nan preisindex then last else preisindex in
  Lakner.mk (Umsatz.jahr r) (Umsatz.umsatz_nominal r) (Umsatz.umsatz_real r)
            preis_ratio preisindex ((preisindex - 1) * 100)
            ((filled / last - 1) * 100).

Fixpoint lakner_rows (base_ratio last : float) (df : list Umsatz.t) : list Lakner.t :=
  match df with
  | [] => []
  | r :: rest =>
      let row := lakner_row base_ratio last r in
      let filled :=
        if is_nan (Lakner.preisindex row) then last else Lakner.preisindex row in
      row :: lakner_rows base_ratio filled rest
  end.

(** [df[df['jahr'] == base_year]] and a row's nominal-to-real ratio, for the
    statements below. *)
Definition base_year_rows (base_year : Z) (df : list Umsatz.t) : list Umsatz.t :=
  filter (fun r => Z.eqb (Umsatz.jahr r) base_year) df.

Definition price_ratio (r : Umsatz.t) : float :=
  Umsatz.umsatz_nominal r / Umsatz.umsatz_real r.

(** ** [calculate_real_umsatz_with_destatis] *)

(** [df_nominal[df_nominal['jahr'] == jahr]['umsatz_nominal'].iloc[0]] for
    an integer [jahr], as in line 38, where [jahr] is [base_year]. *)
Definition nominal_at (df_nominal : list Nominal.t) (jahr : Z) : result float :=
  iloc0 (map Nominal.umsatz_nominal
           (filter (fun r => Z.eqb (Nominal.jahr r) jahr) df_nominal)).

(** [result_df.loc[result_df['jahr'] == jahr, column] = value] for an
    integer [jahr], as in line 47; the column is given by the function that
    stores into it. *)
Definition loc_set (jahr : Z) (assign : Real.t -> Real.t) (result_df : list Real.t)
    : list Real.t :=
  map (fun r => if Z.eqb (Real.jahr r) jahr then assign r else r) result_df.

(** The same two idioms inside the loop, lines 59 and 63 to 66.  There
    [jahr] is [row['jahr']] of a row from [iterrows]; the row holds an
    integer and a float, so [iterrows] hands it out as a float64 series and
    [jahr] is a float.  The mask [df['jahr'] == jahr] then compares the
    column, converted to float64, with that float. *)
Definition nominal_at_float (df_nominal : list Nominal.t) (jahr : float)
    : result float :=
  iloc0 (map Nominal.umsatz_nominal
           (filter (fun r => float64_of_int (Nominal.jahr r) =? jahr) df_nominal)).

Definition loc_set_float (jahr : float) (assign : Real.t -> Real.t)
    (result_df : list Real.t) : list Real.t :=
  map (fun r => if float64_of_int (Real.jahr r) =? jahr then assign r else r)
      result_df.

Definition set_umsatz_real_destatis (v : float) (r : Real.t) : Real.t :=
  Real.mk (Real.jahr r) (Real.umsatz_nominal r) v
          (Real.preisindex_destatis r) (Real.inflation_kumulativ_destatis r).

Definition set_preisindex_destatis (v : float) (r : Real.t) : Real.t :=
  Real.mk (Real.jahr r) (Real.umsatz_nominal r) (Real.umsatz_real_destatis r)
          v (Real.inflation_kumulativ_destatis r).

Definition set_inflation_kumulativ_destatis (v : float) (r : Real.t) : Real.t :=
  Real.mk (Real.jahr r) (Real.umsatz_nominal r) (Real.umsatz_real_destatis r)
          (Real.preisindex_destatis r) v.

(** The copy of [df_nominal] with the three new columns at their defaults. *)
Definition initial_result (df_nominal : list Nominal.t) : list Real.t :=
  map (fun r => Real.mk (Nominal.jahr r) (Nominal.umsatz_nominal r)
                        (Nominal.umsatz_nominal r) 1 0) df_nominal.

(** One pass of the loop body, on the running [preisindex] and [result_df]. *)
Definition destatis_step (df_nominal : list Nominal.t)
    (state : float * list Real.t) (row : Destatis.t)
    : result (float * list Real.t) :=
  let '(preisindex, result_df) := state in
  let jahr := float64_of_int (Destatis.jahr row) in
  let inflation_rate := Destatis.inflation_rate_jahr row in
  let preisindex := preisindex * (1 + inflation_rate) in
  nominal_umsatz <- nominal_at_float df_nominal jahr ;;
  let real_umsatz := nominal_umsatz / preisindex in
  let result_df :=
    loc_set_float jahr (set_umsatz_real_destatis real_umsatz) result_df in
  let result_df :=
    loc_set_float jahr (set_preisindex_destatis preisindex) result_df in
  let result_df :=
    loc_set_float jahr (set_inflation_kumulativ_destatis ((preisindex - 1) * 100))
                  result_df in
  Ok (preisindex, result_df).

(** [for _, row in df_destatis.iterrows(): ...], in row order. *)
Fixpoint destatis_loop (df_nominal : list Nominal.t) (rows : list Destatis.t)
    (state : float * list Real.t) : result (float * list Real.t) :=
  match rows with
  | [] => Ok state
  | row :: rest =>
      state' <- destatis_step df_nominal state row ;;
      destatis_loop df_nominal rest state'
  end.

Definition calculate_real_umsatz_with_destatis
    (df_nominal : list Nominal.t) (df_destatis : list Destatis.t) (base_year : Z)
    : result (list Real.t) :=
  base_nominal <- nominal_at df_nominal base_year ;;
  let result_df := initial_result df_nominal in
  let result_df := loc_set base_year (set_umsatz_real_destatis base_nominal) result_df in
  state <- destatis_loop df_nominal df_destatis (1, result_df) ;;
  Ok (snd state).

(** The running product the loop keeps in [preisindex], written as the
    specification words it: the factors [1 + rate], multiplied in row order. *)
Definition chained_index_from (start : float) (rates : list Destatis.t) : float :=
  fold_left mul (map (fun d => 1 + Destatis.inflation_rate_jahr d) rates) start.

Definition chained_index (rates : list Destatis.t) : float :=
  chained_index_from 1 rates.

(** What the three assignments of one pass leave in a row of year [jahr]. *)
Definition chained_row (nominal_umsatz preisindex : float) (r : Real.t) : Real.t :=
  Real.mk (Real.jahr r) (Real.umsatz_nominal r) (nominal_umsatz / preisindex)
          preisindex ((preisindex - 1) * 100).

(** The frame before the loop: the copy with its defaults, the base year's
    real revenue set to [base_nominal]. *)
Definition start_row (base_year : Z) (base_nominal : float) (r : Nominal.t) : Real.t :=
  Real.mk (Nominal.jahr r) (Nominal.umsatz_nominal r)
          (if Z.eqb (Nominal.jahr r) base_year then base_nominal
           else Nominal.umsatz_nominal r) 1 0.

(** ** The comparison in [main] *)

(** [df[['jahr', 'umsatz_nominal']].copy()]. *)
Definition nominal_columns (df : list Lakner.t) : list Nominal.t :=
  map (fun r => Nominal.mk (Lakner.jahr r) (Lakner.umsatz_nominal r)) df.

Definition join_row (l : Real.t) (umsatz_real preisindex inflation_kumulativ : float)
    : Combined.t :=
  Combined.mk (Real.jahr l) (Real.umsatz_nominal l) (Real.umsatz_real_destatis l)
              (Real.preisindex_destatis l) (Real.inflation_kumulativ_destatis l)
              umsatz_real preisindex inflation_kumulativ.

Definition join_rows (l : Real.t) (matches : list Lakner.t) : list Combined.t :=
  map (fun r => join_row l (Lakner.umsatz_real r) (Lakner.preisindex r)
                         (Lakner.inflation_kumulativ r)) matches.

Definition matching (right : list Lakner.t) (jahr : Z) : list Lakner.t :=
  filter (fun r => Z.eqb (Lakner.jahr r) jahr) right.

(** [pd.merge(left, right[['jahr', 'umsatz_real', 'preisindex',
    'inflation_kumulativ']], on='jahr', how='left')]: every left row, in left
    order, once per right row of its year; a left row without a partner is
    kept with missing values in the right columns. *)
Definition merge_left (left : list Real.t) (right : list Lakner.t) : list Combined.t :=
  flat_map (fun l =>
              match matching right (Real.jahr l) with
              | [] => [join_row l nan nan nan]
              | matches => join_rows l matches
              end) left.


(** The values the two tables of [print_destatis_comparison] show, line by
    line, before they are formatted: the format strings and the [int(...)]
    that renders the year are left uninterpreted. *)
Record RealLine : Set := mkRealLine {
  real_jahr : Z;
  nominal : float;
  real_lakner : float;
  real_destatis : float;
  differenz : float
}.

Record KumulLine : Set := mkKumulLine {
  kumul_jahr : Z;
  lakner_kumul : float;
  destatis_kumul : float;
  diff_kumul : float
}.

Definition real_line (row : Combined.t) : RealLine :=
  let nominal := Combined.umsatz_nominal row in
  let real_lakner := Combined.umsatz_real row in
  let real_destatis := Combined.umsatz_real_destatis row in
  let differenz := real_destatis - real_lakner in
  mkRealLine (Combined.jahr row) nominal real_lakner real_destatis differenz.

Definition kumul_line (row : Combined.t) : KumulLine :=
  let lakner_kumul := Combined.inflation_kumulativ row in
  let destatis_kumul := Combined.inflation_kumulativ_destatis row in
  let diff_kumul := destatis_kumul - lakner_kumul in
  mkKumulLine (Combined.jahr row) lakner_kumul destatis_kumul diff_kumul.

Definition print_destatis_comparison (df_combined : list Combined.t)
    : list RealLine * list KumulLine :=
  (map real_line df_combined, map kumul_line df_combined).

(** *** The sum of a float64 array

    [values.sum()] is numpy's [add.reduce]; on a contiguous array it adds
    pairwise.  Fewer than 8 values are added one after the other.  Up to
    128 values are added in eight interleaved partial sums [r[0]] to
    [r[7]], which are then added as a tree, followed by the values past the
    last full block of eight.  A longer array is cut in two, the first part
    a multiple of eight long, and the sums of the parts are added. *)

(** [r[j] += a[i + j]] for the eight accumulators. *)
Fixpoint add_columns (r a : list float) : list float :=
  match r, a with
  | x :: r', y :: a' => (x + y) :: add_columns r' a'
  | _, _ => r
  end.

(** The loop over the full blocks of eight that follow the first; it
    returns the accumulators and the values it did not reach. *)
Fixpoint add_blocks (blocks : nat) (r a : list float) : list float * list float :=
  match blocks with
  | O => (r, a)
  | S k => add_blocks k (add_columns r (firstn 8 a)) (skipn 8 a)
  end.

Definition sum_unrolled (a : list float) : float :=
  let n := length a in
  let '(r, rest) := add_blocks (n / 8 - 1) (firstn 8 a) (skipn 8 a) in
  let res := ((nth 0 r 0 + nth 1 r 0) + (nth 2 r 0 + nth 3 r 0))
             + ((nth 4 r 0 + nth 5 r 0) + (nth 6 r 0 + nth 7 r 0)) in
  fold_left add rest res.

(** The recursion halves the array, so a fuel of its length is never used
    up ([pairwise_sum_fuel_enough] below). *)
Fixpoint pairwise_sum_fuel (fuel : nat) (a : list float) : float :=
  let n := length a in
  if (n <? 8)%nat then fold_left add a 0
  else if (n <=? 128)%nat then sum_unrolled a
  else match fuel with
       | O => nan
       | S fuel' =>
           let n2 := (n / 2 - (n / 2) mod 8)%nat in
           pairwise_sum_fuel fuel' (firstn n2 a) + pairwise_sum_fuel fuel' (skipn n2 a)
       end.

Definition pairwise_sum (a : list float) : float :=
  pairwise_sum_fuel (length a) a.

(** The reduction starts from the identity of the addition, 0.0. *)
Definition numpy_sum (a : list float) : float := 0 + pairwise_sum a.

Definition float_of_nat (n : nat) : float :=
  of_uint63 (Uint63.of_Z (Z.of_nat n)).

(** [s.mean()], pandas' [nanmean] with [skipna]: the missing values are
    replaced by 0.0, the array is summed, and the sum is divided by the
    number of values that were present; without any the mean is [nan]. *)
Definition series_mean (s : list float) : float :=
  let values := map (fun x => if is_nan x then 0 else x) s in
  let count := length (filter (fun x => negb (is_nan x)) s) in
  let the_sum := numpy_sum values in
  if (0 <? count)%nat then the_sum / float_of_nat count else nan.

(** The arithmetic mean in the specification's words, the values added one
    after the other. *)
Definition arithmetic_mean (s : list float) : float :=
  fold_left add s 0 / float_of_nat (length s).

(** The figures of the closing section of [main]. *)
Record Erkenntnisse : Set := mkErkenntnisse {
  inflation_2025_lakner : float;
  inflation_2025_destatis : float;
  differenz_2025 : float;
  avg_destatis : float
}.

Definition zusaetzliche_erkenntnisse (df : list Lakner.t)
    (df_combined : list Combined.t) (df_destatis : list Destatis.t)
    : result Erkenntnisse :=
  inflation_2025_lakner <-
    iloc0 (map Lakner.inflation_kumulativ
             (filter (fun r => Z.eqb (Lakner.jahr r) 2025) df)) ;;
  inflation_2025_destatis <-
    iloc0 (map Combined.inflation_kumulativ_destatis
             (filter (fun r => Z.eqb (Combined.jahr r) 2025) df_combined)) ;;
  let avg_destatis := series_mean (map Destatis.inflation_rate_jahr df_destatis) * 100 in
  Ok (mkErkenntnisse inflation_2025_lakner inflation_2025_destatis
                     (inflation_2025_destatis - inflation_2025_lakner) avg_destatis).

(** [main] from the loaded frames to the figures; a [Raise] is the branch
    [except Exception] reports. *)
Record Analyse : Set := mkAnalyse {
  analyse_df : list Lakner.t;
  analyse_combined : list Combined.t;
  analyse_tables : list RealLine * list KumulLine;
  analyse_erkenntnisse : Erkenntnisse
}.

Definition main (df : list Umsatz.t) (df_destatis : list Destatis.t) : result Analyse :=
  df <- calculate_inflation_rates df 2020 ;;
  let df_nominal := nominal_columns df in
  df_combined <- calculate_real_umsatz_with_destatis df_nominal df_destatis 2020 ;;
  let df_combined := merge_left df_combined df in
  let tables := print_destatis_comparison df_combined in
  erkenntnisse <- zusaetzliche_erkenntnisse df df_combined df_destatis ;;
  Ok (mkAnalyse df df_combined tables erkenntnisse).

(** ** The object store *)

(** Python passes frames by reference.  A store holds the frame objects, a
    reference is an index into it. *)
Inductive DataFrame : Set :=
| FrameUmsatz (rows : list Umsatz.t)
| FrameLakner (rows : list Lakner.t)
| FrameNominal (rows : list Nominal.t)
| FrameDestatis (rows : list Destatis.t)
| FrameReal (rows : list Real.t).

Definition Store : Set := list DataFrame.
Definition ref : Set := nat.

Fixpoint store_set (s : Store) (p : ref) (o : DataFrame) : Store :=
  match s, p with
  | [], _ => []
  | _ :: s', O => o :: s'
  | x :: s', S p' => x :: store_set s' p' o
  end.

Definition umsatz_columns (df : list Lakner.t) : list Umsatz.t :=
  map (fun r => Umsatz.mk (Lakner.jahr r) (Lakner.umsatz_nominal r)
                          (Lakner.umsatz_real r)) df.

(** The call [calculate_inflation_rates(df, base_year)]: the four columns are
    assigned on the object [df] refers to ([df['preis_ratio'] = ...]), and
    that same reference is returned.  On a frame that has the columns
    already they are assigned anew.  When the base year is missing the
    exception is raised before the first assignment, and the store is as it
    was. *)
Definition call_calculate_inflation_rates (s : Store) (df : ref) (base_year : Z)
    : result (Store * ref) :=
  match nth_error s df with
  | Some (FrameUmsatz rows) =>
      rows' <- calculate_inflation_rates rows base_year ;;
      Ok (store_set s df (FrameLakner rows'), df)
  | Some (FrameLakner rows) =>
      rows' <- calculate_inflation_rates (umsatz_columns rows) base_year ;;
      Ok (store_set s df (FrameLakner rows'), df)
  | _ => Raise KeyError
  end.

(** The call [calculate_real_umsatz_with_destatis(df_nominal, df_destatis,
    base_year)]: [result_df = df_nominal.copy()] is a new object, every
    assignment goes to it, and it is what the call returns. *)
Definition call_calculate_real_umsatz_with_destatis (s : Store)
    (df_nominal df_destatis : ref) (base_year : Z) : result (Store * ref) :=
  match nth_error s df_nominal, nth_error s df_destatis with
  | Some (FrameNominal nominal_rows), Some (FrameDestatis rate_rows) =>
      result_df <-
        calculate_real_umsatz_with_destatis nominal_rows rate_rows base_year ;;
      Ok (s ++ [FrameReal result_df], length s)
  | _, _ => Raise KeyError
  end.

(** ** [load_data] *)

(** The frame [read_csv] returns for [bio_umsatz_real.csv]; the one for
    [bio_umsatz_nominal.csv] has the columns of [Nominal.t]. *)
Module Realwerte.
Record t : Set := mk {
  jahr : Z;
  umsatz_real : float
}.
End Realwerte.

(** [pd.merge(df_nominal, df_real, on='jahr')], an inner join: a row for
    every pair of a nominal and a real row of the same year.  The rows come
    in the order of the nominal frame; with one nominal row per year every
    pandas version gives this order. *)
Definition load_data (df_nominal : list Nominal.t) (df_real : list Realwerte.t)
    : list Umsatz.t :=
  flat_map (fun n =>
              map (fun r => Umsatz.mk (Nominal.jahr n) (Nominal.umsatz_nominal n)
                                      (Realwerte.umsatz_real r))
                  (filter (fun r => Z.eqb (Realwerte.jahr r) (Nominal.jahr n)) df_real))
           df_nominal.

(** ** [print_results] *)






(** ** [create_visualization] *)


(** ** Auxiliary notions for the statements *)

(** The row a left row is joined to when the right frame has at most one
    row per year. *)
Definition joined_row (right : list Lakner.t) (l : Real.t) : Combined.t :=
  match matching right (Real.jahr l) with
  | r :: _ => join_row l (Lakner.umsatz_real r) (Lakner.preisindex r)
                       (Lakner.inflation_kumulativ r)
  | [] => join_row l nan nan nan
  end.

(** The mantissa of the float of a positive integer below 2^53: the integer
    shifted up to 53 binary digits. *)
Definition normal_mantissa (m : positive) : positive :=
  match (Z.pos (digits2_pos m) - 53)%Z with
  | Zneg p => Pos.iter xO m p
  | _ => m
  end.

(** * Properties *)

(** ** Floating-point facts *)




(** Division by a missing value is a missing value. *)
Lemma div_nan_r (x : float) : x / nan = nan.
Proof.
  apply Prim2SF_inj; rewrite div_spec.
  change (Prim2SF nan) with S754_nan.
  destruct (Prim2SF x); reflexivity.
Qed.

(** ** Years as float64 values *)

Lemma digits2_pos_bound (m : positive) : forall k,
  (0 <= k)%Z -> (Z.pos m < 2 ^ k)%Z -> (Z.pos (digits2_pos m) <= k)%Z.
Proof.
  induction m as [m IH|m IH|]; intros k Hk H; cbn [digits2_pos].
  - assert (k <> 0)%Z by (intros ->; cbn in H; lia).
    rewrite Pos2Z.inj_succ.
    specialize (IH (k - 1)%Z ltac:(lia)).
    replace k with (Z.succ (k - 1)) in H by lia.
    rewrite Z.pow_succ_r in H by lia.
    rewrite Pos2Z.inj_xI in H. lia.
  - assert (k <> 0)%Z by (intros ->; cbn in H; lia).
    rewrite Pos2Z.inj_succ.
    specialize (IH (k - 1)%Z ltac:(lia)).
    replace k with (Z.succ (k - 1)) in H by lia.
    rewrite Z.pow_succ_r in H by lia.
    rewrite Pos2Z.inj_xO in H. lia.
  - assert (k <> 0)%Z by (intros ->; cbn in H; lia). lia.
Qed.

Lemma digits2_pos_iter (m p : positive) :
  digits2_pos (Pos.iter xO m p) = (digits2_pos m + p)%positive.
Proof.
  induction p as [|p IH] using Pos.peano_ind.
  - cbn. lia.
  - rewrite Pos.iter_succ. cbn [digits2_pos]. rewrite IH. lia.
Qed.

Lemma iter_xO_inj (p m m' : positive) :
  Pos.iter xO m p = Pos.iter xO m' p -> m = m'.
Proof.
  induction p as [|p IH] using Pos.peano_ind.
  - cbn. congruence.
  - rewrite !Pos.iter_succ. intros H. injection H as H. auto.
Qed.

Lemma normal_mantissa_digits (m : positive) :
  (Z.pos (digits2_pos m) <= 53)%Z ->
  Z.pos (digits2_pos (normal_mantissa m)) = 53%Z.
Proof.
  intros H. unfold normal_mantissa.
  destruct (Z.pos (digits2_pos m) - 53)%Z as [|p|p] eqn:E; try lia.
  rewrite digits2_pos_iter. lia.
Qed.

(** An integer of at most 53 binary digits is rounded to itself. *)
Lemma binary_round_small (s : bool) (m : positive) :
  (Z.pos (digits2_pos m) <= 53)%Z ->
  binary_round prec emax s m 0
  = S754_finite s (normal_mantissa m) (Z.pos (digits2_pos m) - 53).
Proof.
  intros Hd. unfold binary_round, shl_align.
  unfold fexp, emin. change prec with 53%Z. change emax with 1024%Z.
  rewrite Z.add_0_r.
  replace (Z.max (Z.pos (digits2_pos m) - 53) (3 - 1024 - 53))
    with (Z.pos (digits2_pos m) - 53)%Z by lia.
  rewrite Z.sub_0_r.
  pose proof (normal_mantissa_digits m Hd) as Hn. unfold normal_mantissa in *.
  set (e := (Z.pos (digits2_pos m) - 53)%Z) in *.
  assert (Hres : forall mz ez, Z.pos (digits2_pos mz) = 53%Z -> (-52 <= ez <= 0)%Z ->
            binary_round_aux 53 1024 s (Z.pos mz) ez loc_Exact = S754_finite s mz ez).
  { intros mz ez Hmz Hez. unfold binary_round_aux, shr_fexp.
    change (Zdigits2 (Z.pos mz)) with (Z.pos (digits2_pos mz)). rewrite Hmz.
    unfold fexp, emin.
    replace (Z.max (53 + ez - 53) (3 - 1024 - 53) - ez)%Z with 0%Z by lia.
    cbn [shr shr_record_of_loc shr_m shr_r shr_s orb loc_of_shr_record round_nearest_even].
    change (Zdigits2 (Z.pos mz)) with (Z.pos (digits2_pos mz)). rewrite Hmz.
    replace (Z.max (53 + ez - 53) (3 - 1024 - 53) - ez)%Z with 0%Z by lia.
    cbn [shr shr_m].
    replace (ez <=? 1024 - 53)%Z with true by (symmetry; apply Z.leb_le; lia).
    reflexivity. }
  assert (He : (-52 <= e <= 0)%Z) by (unfold e; lia).
  destruct e as [|p|p] eqn:E; try lia; apply Hres; auto; lia.
Qed.

Lemma float64_of_int_small (z : Z) :
  float64_exact z ->
  Prim2SF (float64_of_int z)
  = match z with
    | Z0 => S754_zero false
    | Zpos m => S754_finite false (normal_mantissa m) (Z.pos (digits2_pos m) - 53)
    | Zneg m => S754_finite true (normal_mantissa m) (Z.pos (digits2_pos m) - 53)
    end.
Proof.
  unfold float64_exact. intros H. unfold float64_of_int.
  assert (Hd : forall m, (Z.pos m < 2 ^ 53)%Z -> (Z.pos (digits2_pos m) <= 53)%Z)
    by (intros m Hm; apply digits2_pos_bound; lia).
  assert (Hv : forall s m, (Z.pos (digits2_pos m) <= 53)%Z ->
             valid_binary (S754_finite s (normal_mantissa m)
                                       (Z.pos (digits2_pos m) - 53)) = true).
  { intros s m Hm. cbn [valid_binary SpecFloat.valid_binary].
    unfold bounded, canonical_mantissa, fexp, emin.
    rewrite (normal_mantissa_digits m Hm).
    change prec with 53%Z. change emax with 1024%Z.
    apply andb_true_iff. split; [apply Z.eqb_eq|apply Z.leb_le]; lia. }
  destruct z as [|m|m]; cbn [binary_normalize].
  - reflexivity.
  - rewrite binary_round_small by (apply Hd; lia).
    apply Prim2SF_SF2Prim, Hv, Hd. lia.
  - rewrite binary_round_small by (apply Hd; lia).
    apply Prim2SF_SF2Prim, Hv, Hd. lia.
Qed.

Lemma normal_form_inj (m m' : positive) :
  normal_mantissa m = normal_mantissa m' ->
  digits2_pos m = digits2_pos m' ->
  m = m'.
Proof.
  unfold normal_mantissa. intros H Hd. rewrite <- Hd in H.
  destruct (Z.pos (digits2_pos m) - 53)%Z; auto.
  now apply iter_xO_inj in H.
Qed.

Lemma SFeqb_finite (s s' : bool) (m m' : positive) (e e' : Z) :
  SFeqb (S754_finite s m e) (S754_finite s' m' e') = true <->
  s = s' /\ m = m' /\ e = e'.
Proof.
  unfold SFeqb, SFcompare. split.
  - destruct s, s'; try discriminate;
      destruct (Z.compare_spec e e'); try discriminate;
      fold (Pos.compare m m'); destruct (Pos.compare_spec m m'); try discriminate;
      auto.
  - intros (-> & -> & ->).
    destruct s'; rewrite Z.compare_refl, Pos.compare_cont_refl; reflexivity.
Qed.

(** Below 2^53 in magnitude the comparison of two years as floats is their
    comparison as integers. *)
Lemma same_year_exact (a b : Z) :
  float64_exact a -> float64_exact b -> same_year a b = Z.eqb a b.
Proof.
  intros Ha Hb. unfold same_year. rewrite eqb_spec.
  rewrite (float64_of_int_small a Ha), (float64_of_int_small b Hb).
  destruct (Z.eqb_spec a b) as [->|Hne].
  - destruct b; [reflexivity| |]; apply SFeqb_finite; auto.
  - apply not_true_is_false. intros H. apply Hne.
    destruct a as [|m|m], b as [|m'|m']; try discriminate H; try reflexivity;
      apply SFeqb_finite in H as (Hs & Hm & He); try discriminate Hs;
      f_equal; apply normal_form_inj; auto; lia.
Qed.

Lemma exact_in {A : Type} (jahr : A -> Z) (l : list A) (x : A) :
  Forall float64_exact (map jahr l) -> In x l -> float64_exact (jahr x).
Proof.
  intros H Hx. rewrite Forall_forall in H. apply H. now apply in_map.
Qed.

(** Beyond 2^53 two different years can be the same float: 2^53 + 1 is
    rounded to 2^53. *)
Example same_year_beyond_exact :
  same_year 9007199254740993 9007199254740992 = true /\
  same_year 9007199254740994 9007199254740992 = false.
Proof. split; vm_compute; reflexivity. Qed.

(** ** Sums of floats *)

Lemma digits2_pos_lower (m : positive) :
  (2 ^ (Z.pos (digits2_pos m) - 1) <= Z.pos m)%Z.
Proof.
  induction m as [m IH|m IH|]; cbn [digits2_pos].
  - rewrite Pos2Z.inj_succ.
    replace (Z.succ (Z.pos (digits2_pos m)) - 1)%Z
      with (Z.succ (Z.pos (digits2_pos m) - 1)) by lia.
    rewrite Z.pow_succ_r by lia. lia.
  - rewrite Pos2Z.inj_succ.
    replace (Z.succ (Z.pos (digits2_pos m)) - 1)%Z
      with (Z.succ (Z.pos (digits2_pos m) - 1)) by lia.
    rewrite Z.pow_succ_r by lia. lia.
  - cbn. lia.
Qed.

Lemma shr_1_div2 (mrs : shr_record) :
  (0 <= shr_m mrs)%Z -> shr_m (shr_1 mrs) = (shr_m mrs / 2)%Z.
Proof.
  destruct mrs as [m r s]. cbn [shr_m shr_1]. intros H.
  destruct m as [|[p|p|]|p]; cbn [shr_m]; try lia.
  - reflexivity.
  - rewrite Pos2Z.inj_xI.
    apply (Z.div_unique_pos _ 2 (Z.pos p) 1); lia.
  - rewrite Pos2Z.inj_xO.
    apply (Z.div_unique_pos _ 2 (Z.pos p) 0); lia.
  - reflexivity.
Qed.

Lemma iter_shr_1_div (p : positive) : forall mrs,
  (0 <= shr_m mrs)%Z ->
  shr_m (iter_pos shr_1 p mrs) = (shr_m mrs / 2 ^ Z.pos p)%Z /\
  (0 <= shr_m (iter_pos shr_1 p mrs))%Z.
Proof.
  induction p as [p IH|p IH|]; intros mrs H; cbn [iter_pos].
  - assert (H1 : (0 <= shr_m (shr_1 mrs))%Z)
      by (rewrite shr_1_div2 by exact H; apply Z.div_pos; lia).
    destruct (IH _ H1) as [E1 P1]. destruct (IH _ P1) as [E2 P2].
    split; [|exact P2].
    rewrite E2, E1, shr_1_div2 by exact H.
    assert (Hpow : (0 < 2 ^ Z.pos p)%Z) by (apply Z.pow_pos_nonneg; lia).
    rewrite !Z.div_div by lia. f_equal.
    rewrite Pos2Z.inj_xI.
    replace (2 * Z.pos p + 1)%Z with (1 + Z.pos p + Z.pos p)%Z by lia.
    rewrite !Z.pow_add_r by lia. change (2 ^ 1)%Z with 2%Z. ring.
  - destruct (IH _ H) as [E1 P1]. destruct (IH _ P1) as [E2 P2].
    split; [|exact P2].
    assert (Hpow : (0 < 2 ^ Z.pos p)%Z) by (apply Z.pow_pos_nonneg; lia).
    rewrite E2, E1. rewrite Z.div_div by lia. f_equal.
    rewrite <- Z.pow_add_r by lia. f_equal. lia.
  - split.
    + rewrite shr_1_div2 by exact H. reflexivity.
    + rewrite shr_1_div2 by exact H. apply Z.div_pos; lia.
Qed.

(** Shifting to the exponent of the format never loses the whole mantissa
    when the exponent is not below the smallest one. *)
Lemma shr_fexp_positive (m : positive) (e : Z) (l : location) :
  (-1074 <= e)%Z ->
  (0 < shr_m (fst (shr_fexp prec emax (Z.pos m) e l)))%Z /\
  (-1074 <= snd (shr_fexp prec emax (Z.pos m) e l))%Z.
Proof.
  intros He. unfold shr_fexp, shr.
  change (Zdigits2 (Z.pos m)) with (Z.pos (digits2_pos m)).
  unfold fexp, emin. change prec with 53%Z. change emax with 1024%Z.
  pose proof (digits2_pos_lower m) as Hlow.
  set (d := Z.pos (digits2_pos m)) in *.
  assert (Hm : shr_m (shr_record_of_loc (Z.pos m) l) = Z.pos m)
    by (destruct l as [|[]]; reflexivity).
  destruct (Z.max (d + e - 53) (3 - 1024 - 53) - e)%Z as [|p|p] eqn:E;
    cbn [fst snd]; rewrite ?Hm; try (split; lia).
  assert (Hp : Z.pos p = (d - 53)%Z) by lia.
  destruct (iter_shr_1_div p (shr_record_of_loc (Z.pos m) l)) as [Ediv _];
    [rewrite Hm; lia|].
  rewrite Ediv, Hm. split; [|lia].
  apply Z.div_str_pos. split; [apply Z.pow_pos_nonneg; lia|].
  apply Z.le_trans with (2 ^ (d - 1))%Z; [|exact Hlow].
  apply Z.pow_le_mono_r; lia.
Qed.

Lemma binary_round_aux_nonzero (s sz : bool) (m : positive) (e : Z) (l : location) :
  (-1074 <= e)%Z ->
  binary_round_aux prec emax s (Z.pos m) e l <> S754_zero sz.
Proof.
  intros He. unfold binary_round_aux.
  destruct (shr_fexp_positive m e l He) as [H1 H1e].
  destruct (shr_fexp prec emax (Z.pos m) e l) as [mrs' e']. cbn [fst snd] in H1, H1e.
  assert (H2 : (0 < round_nearest_even (shr_m mrs') (loc_of_shr_record mrs'))%Z).
  { unfold round_nearest_even.
    destruct (loc_of_shr_record mrs') as [|[]]; try lia.
    destruct (Z.even _); lia. }
  destruct (round_nearest_even (shr_m mrs') (loc_of_shr_record mrs')) as [|m2|m2];
    try lia.
  destruct (shr_fexp_positive m2 e' loc_Exact H1e) as [H3 _].
  destruct (shr_fexp prec emax (Z.pos m2) e' loc_Exact) as [mrs'' e''].
  cbn [fst] in H3.
  destruct (shr_m mrs''); try lia.
  destruct (Z.leb _ _); discriminate.
Qed.

Lemma binary_round_nonzero (s sz : bool) (m : positive) (e : Z) :
  (-1074 <= e)%Z -> binary_round prec emax s m e <> S754_zero sz.
Proof.
  intros He. unfold binary_round, shl_align.
  set (f := fexp prec emax (Z.pos (digits2_pos m) + e)).
  assert (Hf : (-1074 <= f)%Z).
  { unfold f, fexp, emin. change prec with 53%Z. change emax with 1024%Z. lia. }
  destruct (f - e)%Z; apply binary_round_aux_nonzero; lia.
Qed.

Lemma valid_exponent (s : bool) (m : positive) (e : Z) :
  valid_binary (S754_finite s m e) = true -> (-1074 <= e)%Z.
Proof.
  unfold valid_binary, SpecFloat.valid_binary, bounded, canonical_mantissa, fexp, emin.
  change prec with 53%Z. change emax with 1024%Z.
  intros H. apply andb_true_iff in H as [H1 _]. apply Z.eqb_eq in H1. lia.
Qed.

(** A sum is [-0.0] only when both terms are. *)
Lemma add_keeps_off_negative_zero (x y : float) :
  Prim2SF x <> S754_zero true -> Prim2SF (x + y) <> S754_zero true.
Proof.
  intros Hx. rewrite add_spec.
  pose proof (Prim2SF_valid x) as Vx. pose proof (Prim2SF_valid y) as Vy.
  unfold SF64add, SFadd.
  destruct (Prim2SF x) as [sx|sx| |sx mx ex], (Prim2SF y) as [sy|sy| |sy my ey];
    try discriminate.
  - destruct sx, sy; try discriminate. congruence.
  - destruct sx, sy; discriminate.
  - apply valid_exponent in Vx, Vy.
    unfold binary_normalize.
    destruct (_ + _)%Z; [discriminate| |]; apply binary_round_nonzero; lia.
Qed.

Lemma fold_add_off_negative_zero (s : list float) : forall acc,
  Prim2SF acc <> S754_zero true -> Prim2SF (fold_left add s acc) <> S754_zero true.
Proof.
  induction s as [|a s IH]; intros acc H; [exact H|].
  cbn [fold_left]. apply IH. now apply add_keeps_off_negative_zero.
Qed.

Lemma add_zero_l (y : float) : Prim2SF y <> S754_zero true -> 0 + y = y.
Proof.
  intros H. apply Prim2SF_inj. rewrite add_spec.
  change (Prim2SF 0) with (S754_zero false).
  unfold SF64add, SFadd.
  destruct (Prim2SF y) as [s|s| |s m e]; try reflexivity.
  destruct s; [congruence|reflexivity].
Qed.

(** Fewer than eight values are added one after the other, starting from
    0.0. *)
Lemma numpy_sum_short (a : list float) :
  (length a < 8)%nat -> numpy_sum a = fold_left add a 0.
Proof.
  intros H. unfold numpy_sum, pairwise_sum.
  assert (E : pairwise_sum_fuel (length a) a = fold_left add a 0).
  { destruct (length a) as [|n] eqn:En; cbn [pairwise_sum_fuel]; rewrite En;
      (destruct (Nat.ltb_spec (S n) 8) as [_|Hge] ||
       destruct (Nat.ltb_spec 0 8) as [_|Hge]); try reflexivity; lia. }
  rewrite E. apply add_zero_l, fold_add_off_negative_zero. discriminate.
Qed.

(** The fuel is never used up: any fuel that is at least the length of the
    array gives the same sum. *)
Lemma pairwise_sum_fuel_enough (fuel : nat) : forall fuel' a,
  (length a <= fuel)%nat -> (length a <= fuel')%nat ->
  pairwise_sum_fuel fuel a = pairwise_sum_fuel fuel' a.
Proof.
  induction fuel as [|k IH]; intros fuel' a H H'.
  - destruct a; [|cbn in H; lia]. destruct fuel'; reflexivity.
  - destruct fuel' as [|k'].
    + destruct a; [reflexivity|cbn in H'; lia].
    + cbn [pairwise_sum_fuel].
      destruct (Nat.ltb_spec (length a) 8); [reflexivity|].
      destruct (Nat.leb_spec (length a) 128); [reflexivity|].
      set (n := length a) in *.
      pose proof (Nat.div_mod_eq n 2) as Hdiv.
      pose proof (Nat.mod_upper_bound n 2 ltac:(lia)) as Hmod.
      pose proof (Nat.mod_upper_bound (n / 2) 8 ltac:(lia)) as Hmod8.
      set (n2 := (n / 2 - (n / 2) mod 8)%nat) in *.
      assert (Hn2 : (1 <= n2 < n)%nat) by (unfold n2; lia).
      assert (Hf : length (firstn n2 a) = n2)
        by (rewrite length_firstn; fold n; lia).
      assert (Hs : length (skipn n2 a) = (n - n2)%nat)
        by (rewrite length_skipn; reflexivity).
      rewrite (IH k' (firstn n2 a)), (IH k' (skipn n2 a)) by lia.
      reflexivity.
Qed.

(** ** [calculate_inflation_rates], row by row *)

Lemma with_columns_rows (b : float) (df : list Umsatz.t) : forall last,
  with_columns df
    (map (fun r => Umsatz.umsatz_nominal r / Umsatz.umsatz_real r) df)
    (map (fun q => q / b)
       (map (fun r => Umsatz.umsatz_nominal r / Umsatz.umsatz_real r) df))
    (map (fun p => (p - 1) * 100)
       (map (fun q => q / b)
          (map (fun r => Umsatz.umsatz_nominal r / Umsatz.umsatz_real r) df)))
    (map (fun c => c * 100)
       (change_from last
          (ffill_from last
             (map (fun q => q / b)
                (map (fun r => Umsatz.umsatz_nominal r / Umsatz.umsatz_real r) df)))))
  = lakner_rows b last df.
Proof.
  induction df as [|r df IH]; intros last; [reflexivity|].
  cbn [map ffill_from change_from with_columns lakner_rows].
  rewrite IH. reflexivity.
Qed.

Lemma calculate_inflation_rates_rows (df : list Umsatz.t) (base_year : Z) :
  calculate_inflation_rates df base_year =
  (base_row <- iloc0 (base_year_rows base_year df) ;;
   Ok (lakner_rows (price_ratio base_row) nan df)).
Proof.
  unfold calculate_inflation_rates, base_year_rows, pct_change, ffill, price_ratio.
  destruct (iloc0 _) as [base_row|e]; [|reflexivity].
  cbn [bind]. now rewrite with_columns_rows.
Qed.

Lemma lakner_rows_length (b : float) (df : list Umsatz.t) : forall last,
  length (lakner_rows b last df) = length df.
Proof.
  induction df as [|r df IH]; intros last; cbn; [reflexivity|].
  now rewrite IH.
Qed.

Lemma lakner_rows_jahr (b : float) (df : list Umsatz.t) : forall last,
  map Lakner.jahr (lakner_rows b last df) = map Umsatz.jahr df.
Proof.
  induction df as [|r df IH]; intros last; cbn; [reflexivity|].
  now rewrite IH.
Qed.

(** Row [i] of the result comes from row [i] of the input; its price index
    is the row's ratio over the base ratio. *)
Lemma lakner_rows_nth (b : float) (df : list Umsatz.t) :
  forall last i r,
    nth_error df i = Some r ->
    exists o,
      nth_error (lakner_rows b last df) i = Some o /\
      Lakner.jahr o = Umsatz.jahr r /\
      Lakner.umsatz_nominal o = Umsatz.umsatz_nominal r /\
      Lakner.umsatz_real o = Umsatz.umsatz_real r /\
      Lakner.preis_ratio o = price_ratio r /\
      Lakner.preisindex o = price_ratio r / b /\
      Lakner.inflation_kumulativ o = (price_ratio r / b - 1) * 100.
Proof.
  induction df as [|x df IH]; intros last [|i] r H; try discriminate.
  - injection H as ->. eexists; split; [reflexivity|]. cbn. tauto.
  - cbn in H. cbn [lakner_rows nth_error]. now apply IH.
Qed.

(** The first row of a year in the result comes from the first row of that
    year in the input. *)
Lemma lakner_rows_first (b : float) (jahr : Z) (df : list Umsatz.t) :
  forall last r,
    iloc0 (filter (fun r => Z.eqb (Umsatz.jahr r) jahr) df) = Ok r ->
    exists o,
      iloc0 (filter (fun o => Z.eqb (Lakner.jahr o) jahr) (lakner_rows b last df)) = Ok o /\
      Lakner.jahr o = jahr /\
      Lakner.preisindex o = price_ratio r / b /\
      Lakner.inflation_kumulativ o = (price_ratio r / b - 1) * 100.
Proof.
  induction df as [|x df IH]; intros last r H; [discriminate|].
  cbn [filter lakner_rows] in *.
  change (Lakner.jahr (lakner_row b last x)) with (Umsatz.jahr x).
  destruct (Z.eqb (Umsatz.jahr x) jahr) eqn:E.
  - cbn in H. injection H as ->.
    eexists; split; [reflexivity|]. cbn.
    apply Z.eqb_eq in E. tauto.
  - now apply IH.
Qed.

Lemma iloc0_filter_none {A : Type} (p : A -> bool) (l : list A) :
  (forall x, In x l -> p x = false) -> iloc0 (filter p l) = Raise IndexError.
Proof.
  induction l as [|x l IH]; intros H; [reflexivity|].
  cbn. rewrite (H x (or_introl eq_refl)).
  apply IH. intros y Hy. apply H. now right.
Qed.

Lemma iloc0_filter_some {A : Type} (p : A -> bool) (l : list A) (x : A) :
  In x l -> p x = true -> exists y, iloc0 (filter p l) = Ok y /\ In y l /\ p y = true.
Proof.
  induction l as [|a l IH]; intros Hin Hp; [contradiction|].
  cbn. destruct (p a) eqn:E.
  - exists a. cbn. auto.
  - destruct Hin as [->|Hin]; [congruence|].
    destruct (IH Hin Hp) as (y & Hy & Hiny & Hpy).
    exists y. auto.
Qed.

Lemma iloc0_filter_app {A : Type} (p : A -> bool) (pre post : list A) (x : A) :
  (forall y, In y pre -> p y = false) -> p x = true ->
  iloc0 (filter p (pre ++ x :: post)) = Ok x.
Proof.
  intros Hpre Hx. induction pre as [|a pre IH]; cbn.
  - now rewrite Hx.
  - rewrite (Hpre a (or_introl eq_refl)).
    apply IH. intros y Hy. apply Hpre. now right.
Qed.

(** ** The chained reconstruction, pass by pass *)

Lemma nominal_at_cases (df_nominal : list Nominal.t) (jahr : Z) :
  (exists n, nominal_at df_nominal jahr = Ok n) \/
  nominal_at df_nominal jahr = Raise IndexError.
Proof.
  unfold nominal_at.
  destruct (map _ _); cbn; eauto.
Qed.

Lemma nominal_at_present (df_nominal : list Nominal.t) (r : Nominal.t) :
  In r df_nominal -> exists n, nominal_at df_nominal (Nominal.jahr r) = Ok n.
Proof.
  intros Hin. unfold nominal_at.
  destruct (iloc0_filter_some (fun x => Z.eqb (Nominal.jahr x) (Nominal.jahr r))
              df_nominal r Hin (Z.eqb_refl _)) as (y & Hy & _).
  destruct (filter _ df_nominal); [discriminate|]. cbn. eauto.
Qed.

Lemma nominal_at_absent (df_nominal : list Nominal.t) (jahr : Z) :
  (forall r, In r df_nominal -> Nominal.jahr r <> jahr) ->
  nominal_at df_nominal jahr = Raise IndexError.
Proof.
  intros H. unfold nominal_at.
  induction df_nominal as [|r l IH]; [reflexivity|].
  cbn [filter].
  destruct (Z.eqb_spec (Nominal.jahr r) jahr) as [E|E].
  - exfalso. exact (H r (or_introl eq_refl) E).
  - apply IH. intros x Hx. apply H. now right.
Qed.

Lemma nominal_at_float_cases (df_nominal : list Nominal.t) (jahr : float) :
  (exists n, nominal_at_float df_nominal jahr = Ok n) \/
  nominal_at_float df_nominal jahr = Raise IndexError.
Proof.
  unfold nominal_at_float.
  destruct (map _ _); cbn; eauto.
Qed.

(** The lookup inside the loop succeeds exactly when some nominal row has a
    year that is, as a float, the year looked up. *)
Lemma nominal_at_float_ok_iff (df_nominal : list Nominal.t) (jahr : Z) :
  (exists n, nominal_at_float df_nominal (float64_of_int jahr) = Ok n) <->
  (exists r, In r df_nominal /\ same_year (Nominal.jahr r) jahr = true).
Proof.
  unfold nominal_at_float. split.
  - intros [n H].
    destruct (filter _ df_nominal) as [|x l] eqn:E; [discriminate|].
    assert (Hx : In x (filter (fun r => float64_of_int (Nominal.jahr r)
                                        =? float64_of_int jahr) df_nominal))
      by (rewrite E; now left).
    apply filter_In in Hx as [Hx Hj]. exists x. auto.
  - intros (r & Hr & Hj).
    destruct (iloc0_filter_some
                (fun x => float64_of_int (Nominal.jahr x) =? float64_of_int jahr)
                df_nominal r Hr Hj) as (y & Hy & _).
    destruct (filter _ df_nominal); [discriminate|]. cbn. eauto.
Qed.

(** With years that float64 keeps apart, the lookup inside the loop finds
    what the lookup by the integer year finds. *)
Lemma nominal_at_float_exact (df_nominal : list Nominal.t) (jahr : Z) :
  Forall float64_exact (map Nominal.jahr df_nominal) ->
  float64_exact jahr ->
  nominal_at_float df_nominal (float64_of_int jahr) = nominal_at df_nominal jahr.
Proof.
  intros Hn Hj. unfold nominal_at_float, nominal_at. do 2 f_equal.
  apply filter_ext_in. intros r Hr.
  apply (same_year_exact (Nominal.jahr r) jahr); [|exact Hj].
  exact (exact_in Nominal.jahr df_nominal r Hn Hr).
Qed.

Section DestatisLoop.

(** The nominal frame the loop looks its years up in. *)
Variable df_nominal : list Nominal.t.

Lemma destatis_step_ok (p n : float)
    (res : list Real.t) (row : Destatis.t) :
  nominal_at_float df_nominal (float64_of_int (Destatis.jahr row)) = Ok n ->
  destatis_step df_nominal (p, res) row =
  Ok (p * (1 + Destatis.inflation_rate_jahr row),
      map (fun r => if same_year (Real.jahr r) (Destatis.jahr row)
                    then chained_row n (p * (1 + Destatis.inflation_rate_jahr row)) r
                    else r) res).
Proof.
  intros Hn. unfold destatis_step. rewrite Hn. cbn [bind].
  do 2 f_equal. unfold loc_set_float, same_year. rewrite !map_map.
  apply map_ext. intros r.
  destruct (float64_of_int (Real.jahr r) =? float64_of_int (Destatis.jahr row)) eqn:E;
    cbn; rewrite ?E; cbn; rewrite ?E; reflexivity.
Qed.

Lemma destatis_step_raise (state : float * list Real.t)
    (row : Destatis.t) (e : PyError) :
  nominal_at_float df_nominal (float64_of_int (Destatis.jahr row)) = Raise e ->
  destatis_step df_nominal state row = Raise e.
Proof.
  intros Hn. destruct state as [p res]. unfold destatis_step. now rewrite Hn.
Qed.

(** The loop ends normally when every rate year is found in the nominal
    frame, and then the running index is the chained product. *)
Lemma destatis_loop_ok (rows : list Destatis.t) :
  (forall d, In d rows ->
     exists n, nominal_at_float df_nominal (float64_of_int (Destatis.jahr d)) = Ok n) ->
  forall p res, exists res',
    destatis_loop df_nominal rows (p, res) = Ok (chained_index_from p rows, res').
Proof.
  induction rows as [|d rows IH]; intros H p res.
  - exists res. reflexivity.
  - destruct (H d (or_introl eq_refl)) as [n Hn].
    cbn [destatis_loop]. rewrite (destatis_step_ok _ _ _ _ Hn). cbn [bind].
    apply IH. intros d' Hd'. apply H. now right.
Qed.

(** The loop stops with [IndexError] at the first rate year that is not
    found. *)
Lemma destatis_loop_raise (rows : list Destatis.t)
    (d : Destatis.t) :
  In d rows ->
  nominal_at_float df_nominal (float64_of_int (Destatis.jahr d)) = Raise IndexError ->
  forall state, destatis_loop df_nominal rows state = Raise IndexError.
Proof.
  induction rows as [|x rows IH]; intros Hin Hd [p res]; [contradiction|].
  cbn [destatis_loop].
  destruct (nominal_at_float_cases df_nominal (float64_of_int (Destatis.jahr x)))
    as [[n Hn]|Hn].
  - rewrite (destatis_step_ok _ _ _ _ Hn). cbn [bind].
    destruct Hin as [->|Hin]; [congruence|]. now apply IH.
  - now rewrite (destatis_step_raise _ _ _ Hn).
Qed.

Lemma destatis_loop_cases (rows : list Destatis.t) :
  forall state,
    (exists state', destatis_loop df_nominal rows state = Ok state') \/
    destatis_loop df_nominal rows state = Raise IndexError.
Proof.
  induction rows as [|d rows IH]; intros [p res].
  - left. eexists. reflexivity.
  - cbn [destatis_loop].
    destruct (nominal_at_float_cases df_nominal (float64_of_int (Destatis.jahr d)))
      as [[n Hn]|Hn].
    + rewrite (destatis_step_ok _ _ _ _ Hn). cbn [bind]. apply IH.
    + rewrite (destatis_step_raise _ _ _ Hn). now right.
Qed.

(** What the loop does to the row at position [i]: it keeps the year and
    the nominal revenue; a row that no rate year matches is left as it was;
    a row that some rate year matches ends with the values of the last
    record that matched it. *)
Lemma destatis_loop_row (rows : list Destatis.t) :
  forall p res p' res',
    destatis_loop df_nominal rows (p, res) = Ok (p', res') ->
    forall i r, nth_error res i = Some r ->
    exists r',
      nth_error res' i = Some r' /\
      Real.jahr r' = Real.jahr r /\
      Real.umsatz_nominal r' = Real.umsatz_nominal r /\
      ((forall d, In d rows -> same_year (Real.jahr r) (Destatis.jahr d) = false) ->
       r' = r) /\
      (forall k d,
          nth_error rows k = Some d ->
          same_year (Real.jahr r) (Destatis.jahr d) = true ->
          (forall d', In d' (skipn (S k) rows) ->
                      same_year (Real.jahr r) (Destatis.jahr d') = false) ->
          exists n,
            nominal_at_float df_nominal (float64_of_int (Destatis.jahr d)) = Ok n /\
            r' = chained_row n (chained_index_from p (firstn (S k) rows)) r).
Proof.
  induction rows as [|d0 rows IH]; intros p res p' res' Hloop i r Hi.
  - cbn in Hloop. injection Hloop as <- <-.
    exists r. repeat split; auto.
    intros [|k] d Hk; discriminate.
  - cbn [destatis_loop] in Hloop.
    destruct (nominal_at_float_cases df_nominal (float64_of_int (Destatis.jahr d0)))
      as [[n0 Hn0]|Hn0];
      [|rewrite (destatis_step_raise _ _ _ Hn0) in Hloop; discriminate].
    rewrite (destatis_step_ok _ _ _ _ Hn0) in Hloop. cbn [bind] in Hloop.
    set (p1 := p * (1 + Destatis.inflation_rate_jahr d0)) in *.
    set (upd := fun r => if same_year (Real.jahr r) (Destatis.jahr d0)
                         then chained_row n0 p1 r else r) in *.
    assert (Hi1 : nth_error (map upd res) i = Some (upd r))
      by (rewrite nth_error_map, Hi; reflexivity).
    assert (Hj : Real.jahr (upd r) = Real.jahr r)
      by (unfold upd; destruct (same_year _ _); reflexivity).
    assert (Hnom : Real.umsatz_nominal (upd r) = Real.umsatz_nominal r)
      by (unfold upd; destruct (same_year _ _); reflexivity).
    destruct (IH _ _ _ _ Hloop i (upd r) Hi1) as (r' & Hr' & Hj' & Hn' & Hkeep & Hset).
    exists r'. rewrite Hj in *. rewrite Hnom in *.
    split; [exact Hr'|]. split; [exact Hj'|]. split; [exact Hn'|]. split.
    + intros Hno. rewrite Hkeep.
      * unfold upd. now rewrite (Hno d0 (or_introl eq_refl)).
      * intros d Hd. apply Hno. now right.
    + intros [|k] d Hk Hd Hlater.
      * cbn in Hk. injection Hk as <-.
        exists n0. split; [exact Hn0|].
        rewrite Hkeep by exact Hlater.
        unfold upd. rewrite Hd. reflexivity.
      * cbn in Hk.
        destruct (Hset k d Hk Hd Hlater) as (n & Hn & Hr).
        exists n. split; [exact Hn|].
        rewrite Hr. cbn [firstn map chained_index_from fold_left].
        unfold chained_row. rewrite Hj, Hnom. reflexivity.
Qed.

Lemma destatis_loop_length (rows : list Destatis.t) :
  forall p res p' res',
    destatis_loop df_nominal rows (p, res) = Ok (p', res') ->
    length res' = length res.
Proof.
  induction rows as [|d0 rows IH]; intros p res p' res' Hloop.
  - cbn in Hloop. now injection Hloop as <- <-.
  - cbn [destatis_loop] in Hloop.
    destruct (nominal_at_float_cases df_nominal (float64_of_int (Destatis.jahr d0)))
      as [[n0 Hn0]|Hn0];
      [|rewrite (destatis_step_raise _ _ _ Hn0) in Hloop; discriminate].
    rewrite (destatis_step_ok _ _ _ _ Hn0) in Hloop. cbn [bind] in Hloop.
    rewrite (IH _ _ _ _ Hloop). apply length_map.
Qed.

End DestatisLoop.

Lemma start_rows (df_nominal : list Nominal.t) (base_year : Z) (base_nominal : float) :
  loc_set base_year (set_umsatz_real_destatis base_nominal) (initial_result df_nominal)
  = map (start_row base_year base_nominal) df_nominal.
Proof.
  unfold loc_set, initial_result. rewrite map_map.
  apply map_ext. intros r. unfold start_row. cbn.
  destruct (Z.eqb (Nominal.jahr r) base_year); reflexivity.
Qed.

(** The reconstruction ends normally when the base year has a nominal row
    and every rate year is found in the nominal frame. *)
Lemma calculate_real_umsatz_ok (df_nominal : list Nominal.t)
    (df_destatis : list Destatis.t) (base_year : Z) (base_nominal : float) :
  nominal_at df_nominal base_year = Ok base_nominal ->
  (forall d, In d df_destatis ->
     exists n, nominal_at_float df_nominal (float64_of_int (Destatis.jahr d)) = Ok n) ->
  exists out,
    destatis_loop df_nominal df_destatis
      (1, map (start_row base_year base_nominal) df_nominal)
    = Ok (chained_index df_destatis, out) /\
    calculate_real_umsatz_with_destatis df_nominal df_destatis base_year = Ok out.
Proof.
  intros Hb Hall.
  destruct (destatis_loop_ok df_nominal df_destatis Hall 1
              (map (start_row base_year base_nominal) df_nominal)) as [out Hout].
  exists out. split; [exact Hout|].
  unfold calculate_real_umsatz_with_destatis. rewrite Hb. cbn [bind].
  rewrite start_rows, Hout. reflexivity.
Qed.

Lemma calculate_real_umsatz_inv (df_nominal : list Nominal.t)
    (df_destatis : list Destatis.t) (base_year : Z) (out : list Real.t) :
  calculate_real_umsatz_with_destatis df_nominal df_destatis base_year = Ok out ->
  exists base_nominal p,
    nominal_at df_nominal base_year = Ok base_nominal /\
    destatis_loop df_nominal df_destatis
      (1, map (start_row base_year base_nominal) df_nominal) = Ok (p, out).
Proof.
  unfold calculate_real_umsatz_with_destatis. intros H.
  destruct (nominal_at df_nominal base_year) as [bn|e]; [|discriminate].
  cbn [bind] in H. rewrite start_rows in H.
  destruct (destatis_loop _ _ _) as [[p res]|e] eqn:E; [|discriminate].
  cbn in H. injection H as <-. exists bn, p. split; [reflexivity|exact E].
Qed.

(** Every row of the result sits at the position of the nominal row it was
    copied from. *)
Lemma calculate_real_umsatz_rows (df_nominal : list Nominal.t)
    (df_destatis : list Destatis.t) (base_year : Z) (out : list Real.t) :
  calculate_real_umsatz_with_destatis df_nominal df_destatis base_year = Ok out ->
  exists base_nominal,
    nominal_at df_nominal base_year = Ok base_nominal /\
    length out = length df_nominal /\
    forall i nr, nth_error df_nominal i = Some nr ->
    exists r,
      nth_error out i = Some r /\
      Real.jahr r = Nominal.jahr nr /\
      Real.umsatz_nominal r = Nominal.umsatz_nominal nr /\
      ((forall d, In d df_destatis ->
                  same_year (Nominal.jahr nr) (Destatis.jahr d) = false) ->
       r = start_row base_year base_nominal nr) /\
      (forall k d,
          nth_error df_destatis k = Some d ->
          same_year (Nominal.jahr nr) (Destatis.jahr d) = true ->
          (forall d', In d' (skipn (S k) df_destatis) ->
                      same_year (Nominal.jahr nr) (Destatis.jahr d') = false) ->
          exists n,
            nominal_at_float df_nominal (float64_of_int (Destatis.jahr d)) = Ok n /\
            r = chained_row n (chained_index (firstn (S k) df_destatis))
                  (start_row base_year base_nominal nr)).
Proof.
  intros H.
  destruct (calculate_real_umsatz_inv _ _ _ _ H) as (bn & p & Hb & Hloop).
  exists bn. split; [exact Hb|]. split.
  - rewrite (destatis_loop_length _ _ _ _ _ _ Hloop). apply length_map.
  - intros i nr Hi.
    assert (Hi' : nth_error (map (start_row base_year bn) df_nominal) i
                  = Some (start_row base_year bn nr))
      by (rewrite nth_error_map, Hi; reflexivity).
    destruct (destatis_loop_row _ _ _ _ _ _ Hloop i _ Hi')
      as (r & Hr & Hj & Hn & Hkeep & Hset).
    exists r. cbn in Hj, Hn. repeat split; auto.
Qed.

Lemma nominal_at_in (df_nominal : list Nominal.t) (jahr : Z) (n : float) :
  nominal_at df_nominal jahr = Ok n ->
  exists nr, In nr df_nominal /\ Nominal.jahr nr = jahr /\ Nominal.umsatz_nominal nr = n.
Proof.
  unfold nominal_at.
  induction df_nominal as [|x l IH]; cbn [filter]; intros H; [discriminate|].
  destruct (Z.eqb_spec (Nominal.jahr x) jahr) as [E|E].
  - cbn in H. injection H as <-. exists x. cbn. auto.
  - destruct (IH H) as (nr & Hin & Hj & Hn). exists nr. cbn. auto.
Qed.

Lemma calculate_real_umsatz_in (df_nominal : list Nominal.t)
    (df_destatis : list Destatis.t) (base_year : Z) (out : list Real.t) (r : Real.t) :
  calculate_real_umsatz_with_destatis df_nominal df_destatis base_year = Ok out ->
  In r out ->
  exists i nr, nth_error df_nominal i = Some nr /\ nth_error out i = Some r.
Proof.
  intros H Hin.
  destruct (calculate_real_umsatz_rows _ _ _ _ H) as (bn & _ & Hlen & _).
  destruct (In_nth_error _ _ Hin) as [i Hi].
  assert (Hlt : (i < length df_nominal)%nat).
  { rewrite <- Hlen. apply nth_error_Some. congruence. }
  destruct (nth_error df_nominal i) as [nr|] eqn:E.
  - exists i, nr. auto.
  - apply nth_error_None in E. lia.
Qed.

(** *** Years that float64 keeps apart

    When every year of the nominal frame and of the rate frame is below
    2^53 in magnitude, the float comparison of the loop is the comparison
    of the years, and the lemmas above read as follows. *)

Lemma in_skipn_in {A : Type} (n : nat) (l : list A) (x : A) :
  In x (skipn n l) -> In x l.
Proof.
  revert l. induction n as [|n IH]; intros [|a l] H; cbn in *; auto.
Qed.

Lemma calculate_real_umsatz_ok_exact (df_nominal : list Nominal.t)
    (df_destatis : list Destatis.t) (base_year : Z) (base_nominal : float) :
  Forall float64_exact (map Nominal.jahr df_nominal) ->
  Forall float64_exact (map Destatis.jahr df_destatis) ->
  nominal_at df_nominal base_year = Ok base_nominal ->
  (forall d, In d df_destatis ->
             exists n, nominal_at df_nominal (Destatis.jahr d) = Ok n) ->
  exists out,
    destatis_loop df_nominal df_destatis
      (1, map (start_row base_year base_nominal) df_nominal)
    = Ok (chained_index df_destatis, out) /\
    calculate_real_umsatz_with_destatis df_nominal df_destatis base_year = Ok out.
Proof.
  intros Hen Hed Hb Hall.
  apply calculate_real_umsatz_ok; [exact Hb|].
  intros d Hd.
  rewrite (nominal_at_float_exact df_nominal (Destatis.jahr d) Hen
             (exact_in Destatis.jahr df_destatis d Hed Hd)).
  now apply Hall.
Qed.

(** A rate year without a nominal row stops the reconstruction. *)
Lemma calculate_real_umsatz_missing_exact (df_nominal : list Nominal.t)
    (df_destatis : list Destatis.t) (base_year : Z) (d : Destatis.t) :
  Forall float64_exact (map Nominal.jahr df_nominal) ->
  float64_exact (Destatis.jahr d) ->
  In d df_destatis ->
  nominal_at df_nominal (Destatis.jahr d) = Raise IndexError ->
  calculate_real_umsatz_with_destatis df_nominal df_destatis base_year
  = Raise IndexError.
Proof.
  intros Hen Hd Hin Hmiss.
  unfold calculate_real_umsatz_with_destatis.
  destruct (nominal_at_cases df_nominal base_year) as [[bn Hb]|Hb];
    rewrite Hb; [|reflexivity].
  cbn [bind].
  rewrite (destatis_loop_raise df_nominal df_destatis d Hin); [reflexivity|].
  now rewrite (nominal_at_float_exact df_nominal (Destatis.jahr d) Hen Hd).
Qed.

Lemma calculate_real_umsatz_rows_exact (df_nominal : list Nominal.t)
    (df_destatis : list Destatis.t) (base_year : Z) (out : list Real.t) :
  Forall float64_exact (map Nominal.jahr df_nominal) ->
  Forall float64_exact (map Destatis.jahr df_destatis) ->
  calculate_real_umsatz_with_destatis df_nominal df_destatis base_year = Ok out ->
  exists base_nominal,
    nominal_at df_nominal base_year = Ok base_nominal /\
    length out = length df_nominal /\
    forall i nr, nth_error df_nominal i = Some nr ->
    exists r,
      nth_error out i = Some r /\
      Real.jahr r = Nominal.jahr nr /\
      Real.umsatz_nominal r = Nominal.umsatz_nominal nr /\
      ((forall d, In d df_destatis -> Destatis.jahr d <> Nominal.jahr nr) ->
       r = start_row base_year base_nominal nr) /\
      (forall k d,
          nth_error df_destatis k = Some d ->
          Destatis.jahr d = Nominal.jahr nr ->
          (forall d', In d' (skipn (S k) df_destatis) ->
                      Destatis.jahr d' <> Nominal.jahr nr) ->
          exists n,
            nominal_at df_nominal (Destatis.jahr d) = Ok n /\
            r = chained_row n (chained_index (firstn (S k) df_destatis))
                  (start_row base_year base_nominal nr)).
Proof.
  intros Hen Hed H.
  destruct (calculate_real_umsatz_rows _ _ _ _ H) as (bn & Hb & Hlen & Hrows).
  exists bn. split; [exact Hb|]. split; [exact Hlen|].
  intros i nr Hi.
  destruct (Hrows i nr Hi) as (r & Hr & Hj & Hn & Hkeep & Hset).
  exists r. split; [exact Hr|]. split; [exact Hj|]. split; [exact Hn|].
  assert (Hnr : float64_exact (Nominal.jahr nr))
    by (apply (exact_in Nominal.jahr df_nominal nr Hen); eapply nth_error_In; eauto).
  assert (Hsame : forall d, In d df_destatis ->
            same_year (Nominal.jahr nr) (Destatis.jahr d)
            = Z.eqb (Nominal.jahr nr) (Destatis.jahr d)).
  { intros d Hd. apply same_year_exact; [exact Hnr|].
    exact (exact_in Destatis.jahr df_destatis d Hed Hd). }
  split.
  - intros Hno. apply Hkeep. intros d Hd. rewrite (Hsame d Hd).
    apply Z.eqb_neq. intros E. now apply (Hno d Hd).
  - intros k d Hk Hd Hlater.
    assert (Hin : In d df_destatis) by (eapply nth_error_In; eauto).
    destruct (Hset k d Hk) as (n & Hnf & Hrow).
    + rewrite (Hsame d Hin). apply Z.eqb_eq. now symmetry.
    + intros d' Hd'.
      rewrite (Hsame d' (in_skipn_in _ _ _ Hd')).
      apply Z.eqb_neq. intros E. now apply (Hlater d' Hd').
    + exists n. split; [|exact Hrow].
      rewrite <- Hnf. symmetry.
      apply nominal_at_float_exact; [exact Hen|].
      exact (exact_in Destatis.jahr df_destatis d Hed Hin).
Qed.

(** ** Anchoring at the base year *)




(** ** More than one base-year record *)

(** C10.  When the series has a base-year record, the implicit-index
    calculation returns, whatever follows that record: further base-year
    records do not make it fail.  The base ratio is taken from the first
    base-year record in input order, and the price index of every row is the
    row's ratio over the ratio of that first record. *)
Theorem C10_first_base_record_used
    (pre post : list Umsatz.t) (first : Umsatz.t) (base_year : Z) :
  (forall r, In r pre -> Umsatz.jahr r <> base_year) ->
  Umsatz.jahr first = base_year ->
  exists out,
    calculate_inflation_rates (pre ++ first :: post) base_year = Ok out /\
    length out = length (pre ++ first :: post) /\
    forall i r, nth_error (pre ++ first :: post) i = Some r ->
    exists o,
      nth_error out i = Some o /\
      Lakner.jahr o = Umsatz.jahr r /\
      Lakner.preisindex o = price_ratio r / price_ratio first /\
      Lakner.inflation_kumulativ o = (price_ratio r / price_ratio first - 1) * 100.
Proof.
  intros Hpre Hfirst.
  exists (lakner_rows (price_ratio first) nan (pre ++ first :: post)).
  split; [|split].
  - rewrite calculate_inflation_rates_rows. unfold base_year_rows.
    rewrite iloc0_filter_app; [reflexivity| |now apply Z.eqb_eq].
    intros y Hy. apply Z.eqb_neq. now apply Hpre.
  - apply lakner_rows_length.
  - intros i r Hi.
    destruct (lakner_rows_nth (price_ratio first) _ nan i r Hi)
      as (o & Ho & Hj & _ & _ & _ & Hp & Hk).
    exists o. auto.
Qed.

(** Two records for 2020, with ratios 1.0 and 1.25: every price index is
    taken relative to the first. *)
Lemma C10_first_base_record_used_witness :
  exists out,
    calculate_inflation_rates
      ([Umsatz.mk 2019 9 10] ++ Umsatz.mk 2020 10 10
         :: [Umsatz.mk 2020 10 8; Umsatz.mk 2021 11 10]) 2020 = Ok out /\
    length out = 4%nat /\
    forall i r,
      nth_error ([Umsatz.mk 2019 9 10] ++ Umsatz.mk 2020 10 10
                   :: [Umsatz.mk 2020 10 8; Umsatz.mk 2021 11 10]) i = Some r ->
      exists o,
        nth_error out i = Some o /\
        Lakner.jahr o = Umsatz.jahr r /\
        Lakner.preisindex o = price_ratio r / price_ratio (Umsatz.mk 2020 10 10) /\
        Lakner.inflation_kumulativ o
        = (price_ratio r / price_ratio (Umsatz.mk 2020 10 10) - 1) * 100.
Proof.
  apply (C10_first_base_record_used
           [Umsatz.mk 2019 9 10] [Umsatz.mk 2020 10 8; Umsatz.mk 2021 11 10]
           (Umsatz.mk 2020 10 10) 2020).
  - intros r [<-|[]]. cbn. lia.
  - reflexivity.
Defined.

(** ** Annual inflation *)

Lemma lakner_rows_annual (b : float) (df : list Umsatz.t) :
  forall last,
    (forall o, In o (lakner_rows b last df) -> is_nan (Lakner.preisindex o) = false) ->
    (forall o, nth_error (lakner_rows b last df) 0 = Some o ->
               Lakner.inflation_jaehrlich o = (Lakner.preisindex o / last - 1) * 100) /\
    (forall i p o,
        nth_error (lakner_rows b last df) i = Some p ->
        nth_error (lakner_rows b last df) (S i) = Some o ->
        Lakner.inflation_jaehrlich o
        = (Lakner.preisindex o / Lakner.preisindex p - 1) * 100).
Proof.
  induction df as [|r df IH]; intros last Hnan.
  - split; [intros o H|intros [|i] p o H]; discriminate.
  - cbn [lakner_rows] in *.
    assert (Hr : is_nan (Lakner.preisindex (lakner_row b last r)) = false)
      by (apply Hnan; left; reflexivity).
    rewrite Hr in *.
    destruct (IH (Lakner.preisindex (lakner_row b last r))) as [IH0 IHS].
    { intros o Ho. apply Hnan. now right. }
    split.
    + intros o H. cbn in H. injection H as <-.
      cbn in Hr |- *. now rewrite Hr.
    + intros [|i] p o Hp Ho; cbn [nth_error] in Hp, Ho.
      * injection Hp as <-. now apply IH0.
      * now apply (IHS i).
Qed.

(** C5, as amended.  The calculation keeps the rows in input order; it does
    not sort.  On a result whose price indices are all numbers (none is
    [nan]), [inflation_jaehrlich] is missing ([nan]) at the first row of the
    input, whatever its year, and at every later row it is
    [(preisindex / preisindex of the row before - 1) * 100], the row before
    being the preceding row of the input. *)
Theorem C5_annual_inflation_in_row_order
    (df : list Umsatz.t) (base_year : Z) (out : list Lakner.t) :
  calculate_inflation_rates df base_year = Ok out ->
  (forall o, In o out -> is_nan (Lakner.preisindex o) = false) ->
  map Lakner.jahr out = map Umsatz.jahr df /\
  (forall o, nth_error out 0 = Some o -> Lakner.inflation_jaehrlich o = nan) /\
  (forall i p o,
      nth_error out i = Some p ->
      nth_error out (S i) = Some o ->
      Lakner.inflation_jaehrlich o
      = (Lakner.preisindex o / Lakner.preisindex p - 1) * 100).
Proof.
  rewrite calculate_inflation_rates_rows.
  destruct (iloc0 (base_year_rows base_year df)) as [base_row|e]; [|discriminate].
  cbn [bind]. intros H Hnan. injection H as <-.
  destruct (lakner_rows_annual (price_ratio base_row) df nan Hnan) as [H0 HS].
  split; [apply lakner_rows_jahr|]. split; [|exact HS].
  intros o Ho. rewrite (H0 o Ho), div_nan_r. reflexivity.
Qed.

(** A series in descending order: 2021 before 2020. *)
Lemma C5_annual_inflation_in_row_order_witness :
  exists out,
    calculate_inflation_rates
      [Umsatz.mk 2021 11 10.5; Umsatz.mk 2020 10 10] 2020 = Ok out /\
    map Lakner.jahr out = [2021%Z; 2020%Z] /\
    (forall o, nth_error out 0 = Some o -> Lakner.inflation_jaehrlich o = nan) /\
    (forall i p o,
        nth_error out i = Some p ->
        nth_error out (S i) = Some o ->
        Lakner.inflation_jaehrlich o
        = (Lakner.preisindex o / Lakner.preisindex p - 1) * 100).
Proof.
  eexists. split; [vm_compute; reflexivity|].
  apply (C5_annual_inflation_in_row_order
           [Umsatz.mk 2021 11 10.5; Umsatz.mk 2020 10 10] 2020).
  - vm_compute. reflexivity.
  - intros o [<-|[<-|[]]]; vm_compute; reflexivity.
Defined.

(** C5 as stated fails on a series that is not in ascending order: the
    result is not sorted, the annual rate is missing at 2021, which is not
    the earliest year, and it is a number at 2020, the earliest year. *)
Lemma C5_counterexample :
  exists out o2021 o2020,
    calculate_inflation_rates
      [Umsatz.mk 2021 11 10.5; Umsatz.mk 2020 10 10] 2020 = Ok out /\
    out = [o2021; o2020] /\
    Lakner.jahr o2021 = 2021%Z /\
    Lakner.jahr o2020 = 2020%Z /\
    is_nan (Lakner.inflation_jaehrlich o2021) = true /\
    is_nan (Lakner.inflation_jaehrlich o2020) = false.
Proof.
  do 3 eexists. split; [vm_compute; reflexivity|].
  split; [reflexivity|]. repeat split; vm_compute; reflexivity.
Qed.

(** ** Failures *)

Lemma eqb_zero (x : float) : (x =? 0) = true -> exists s, Prim2SF x = S754_zero s.
Proof.
  rewrite eqb_spec. change (Prim2SF 0) with (S754_zero false).
  destruct (Prim2SF x) as [s|s| |s m e]; unfold SFeqb, SFcompare.
  - eauto.
  - destruct s; discriminate.
  - discriminate.
  - destruct s; discriminate.
Qed.

(** A division by zero raises nothing: the quotient is infinite, or [nan]
    when the dividend is zero or [nan]. *)
Lemma div_by_zero (x y : float) :
  (y =? 0) = true -> infinite_or_nan (x / y) = true.
Proof.
  intros H. destruct (eqb_zero y H) as [s Hy].
  unfold infinite_or_nan. rewrite div_spec, Hy.
  destruct (Prim2SF x); reflexivity.
Qed.

Lemma div_infinite_or_nan (x y : float) :
  infinite_or_nan x = true -> infinite_or_nan (x / y) = true.
Proof.
  unfold infinite_or_nan. rewrite div_spec.
  destruct (Prim2SF x); try discriminate; destruct (Prim2SF y); reflexivity.
Qed.

Lemma lakner_rows_in (b : float) (df : list Umsatz.t) : forall last o,
  In o (lakner_rows b last df) ->
  Lakner.preis_ratio o = Lakner.umsatz_nominal o / Lakner.umsatz_real o /\
  Lakner.preisindex o = Lakner.preis_ratio o / b.
Proof.
  induction df as [|r df IH]; intros last o H; [contradiction|].
  cbn [lakner_rows] in H. destruct H as [<-|H].
  - split; reflexivity.
  - exact (IH _ o H).
Qed.

(** C4, as amended.  The implicit-index calculation raises [IndexError] (the
    specification's DataError) when the series has no record for the base
    year.  When it has one the calculation returns a row for every input
    row, whatever the real revenues are: a real revenue of zero raises
    nothing, so [ZeroDivisionError] is never the outcome, and the row with
    the real revenue zero comes out with a ratio and a price index that are
    infinite or [nan].  The chained reconstruction raises [IndexError] when
    a rate record names a year that has no nominal record, the years being
    below 2^53 in magnitude. *)
Theorem C4_missing_year_raises_zero_real_does_not :
  (forall df base_year,
      (forall r, In r df -> Umsatz.jahr r <> base_year) ->
      calculate_inflation_rates df base_year = Raise IndexError) /\
  (forall df base_year r,
      In r df -> Umsatz.jahr r = base_year ->
      exists out,
        calculate_inflation_rates df base_year = Ok out /\
        length out = length df) /\
  (forall df base_year,
      calculate_inflation_rates df base_year <> Raise ZeroDivisionError) /\
  (forall df base_year out o,
      calculate_inflation_rates df base_year = Ok out ->
      In o out ->
      (Lakner.umsatz_real o =? 0) = true ->
      infinite_or_nan (Lakner.preis_ratio o) = true /\
      infinite_or_nan (Lakner.preisindex o) = true) /\
  (forall df_nominal df_destatis base_year d,
      Forall float64_exact (map Nominal.jahr df_nominal) ->
      float64_exact (Destatis.jahr d) ->
      In d df_destatis ->
      (forall r, In r df_nominal -> Nominal.jahr r <> Destatis.jahr d) ->
      calculate_real_umsatz_with_destatis df_nominal df_destatis base_year
      = Raise IndexError).
Proof.
  assert (Hmiss : forall df base_year,
             (forall r, In r df -> Umsatz.jahr r <> base_year) ->
             calculate_inflation_rates df base_year = Raise IndexError).
  { intros df base_year H.
    rewrite calculate_inflation_rates_rows. unfold base_year_rows.
    rewrite iloc0_filter_none; [reflexivity|].
    intros x Hx. apply Z.eqb_neq. now apply H. }
  assert (Hhas : forall df base_year r,
             In r df -> Umsatz.jahr r = base_year ->
             exists out,
               calculate_inflation_rates df base_year = Ok out /\
               length out = length df).
  { intros df base_year r Hin Hj.
    rewrite calculate_inflation_rates_rows. unfold base_year_rows.
    destruct (iloc0_filter_some (fun x => Z.eqb (Umsatz.jahr x) base_year) df r Hin)
      as (y & Hy & _); [now apply Z.eqb_eq|].
    rewrite Hy. cbn [bind]. eexists. split; [reflexivity|].
    apply lakner_rows_length. }
  split; [exact Hmiss|]. split; [exact Hhas|]. split; [|split].
  - intros df base_year H.
    rewrite calculate_inflation_rates_rows in H.
    unfold base_year_rows in H.
    destruct (filter _ df); cbn in H; discriminate H.
  - intros df base_year out o Hout Hin Hzero.
    rewrite calculate_inflation_rates_rows in Hout.
    destruct (iloc0 (base_year_rows base_year df)) as [base_row|e]; [|discriminate].
    cbn [bind] in Hout. injection Hout as <-.
    destruct (lakner_rows_in _ _ _ _ Hin) as [Hq Hp].
    assert (Hratio : infinite_or_nan (Lakner.preis_ratio o) = true)
      by (rewrite Hq; now apply div_by_zero).
    split; [exact Hratio|].
    rewrite Hp. now apply div_infinite_or_nan.
  - intros df_nominal df_destatis base_year d Hen Hd Hin Habs.
    apply (calculate_real_umsatz_missing_exact df_nominal df_destatis base_year d
             Hen Hd Hin).
    now apply nominal_at_absent.
Qed.

(** No record for 2020; a record for 2020 among records with real revenue
    zero, and what the record of 2021 with real revenue zero comes out
    with; a rate for 2022 without a nominal record for 2022. *)
Lemma C4_missing_year_raises_zero_real_does_not_witness :
  calculate_inflation_rates [Umsatz.mk 2021 11 10.5] 2020 = Raise IndexError /\
  (exists out,
      calculate_inflation_rates
        [Umsatz.mk 2020 10 10; Umsatz.mk 2021 11 0] 2020 = Ok out /\
      length out = 2%nat) /\
  calculate_inflation_rates [Umsatz.mk 2020 10 0] 2020 <> Raise ZeroDivisionError /\
  (infinite_or_nan
     (Lakner.preis_ratio (Lakner.mk 2021 11 0 infinity infinity infinity infinity))
   = true /\
   infinite_or_nan
     (Lakner.preisindex (Lakner.mk 2021 11 0 infinity infinity infinity infinity))
   = true) /\
  calculate_real_umsatz_with_destatis
    [Nominal.mk 2020 10; Nominal.mk 2021 10.5]
    [Destatis.mk 2021 0.03; Destatis.mk 2022 0.02] 2020 = Raise IndexError.
Proof.
  destruct C4_missing_year_raises_zero_real_does_not
    as (Hmiss & Hhas & Hnz & Hinf & Hrate).
  split; [|split; [|split; [|split]]].
  - apply Hmiss. intros r [<-|[]]. cbn. lia.
  - apply (Hhas [Umsatz.mk 2020 10 10; Umsatz.mk 2021 11 0] 2020%Z
             (Umsatz.mk 2020 10 10)).
    + left. reflexivity.
    + reflexivity.
  - exact (Hnz [Umsatz.mk 2020 10 0] 2020%Z).
  - apply (Hinf [Umsatz.mk 2020 10 10; Umsatz.mk 2021 11 0] 2020%Z
             [Lakner.mk 2020 10 10 1 1 0 nan;
              Lakner.mk 2021 11 0 infinity infinity infinity infinity]).
    + vm_compute. reflexivity.
    + right. left. reflexivity.
    + reflexivity.
  - apply (Hrate _ _ 2020%Z (Destatis.mk 2022 0.02)).
    + repeat constructor.
    + reflexivity.
    + right. left. reflexivity.
    + intros r [<-|[<-|[]]]; cbn; lia.
Defined.

(** C4 as stated fails: a series whose base-year record has real revenue 0.0
    does not raise.  The calculation returns; the ratio 10.0 / 0.0 is [inf]
    and the price index [inf / inf] is [nan]. *)
Lemma C4_counterexample :
  exists out o,
    calculate_inflation_rates
      [Umsatz.mk 2020 10 0; Umsatz.mk 2021 11 10.5] 2020 = Ok out /\
    nth_error out 0 = Some o /\
    (Lakner.umsatz_real o =? 0) = true /\
    Lakner.preis_ratio o = infinity /\
    Lakner.preisindex o = nan.
Proof.
  do 2 eexists. split; [vm_compute; reflexivity|].
  split; [reflexivity|]. repeat split; vm_compute; reflexivity.
Qed.

(** ** The chained index *)

Lemma ascending_no_later (rows : list Destatis.t) :
  StronglySorted Z.lt (map Destatis.jahr rows) ->
  forall k d, nth_error rows k = Some d ->
  forall d', In d' (skipn (S k) rows) -> Destatis.jahr d' <> Destatis.jahr d.
Proof.
  induction rows as [|x rows IH]; intros Hs [|k] d Hk d' Hd'; try discriminate.
  - cbn in Hk, Hd'. injection Hk as <-.
    cbn in Hs. apply StronglySorted_inv in Hs as [_ Hall].
    rewrite Forall_forall in Hall.
    specialize (Hall (Destatis.jahr d') (in_map _ _ _ Hd')). lia.
  - cbn in Hs. apply StronglySorted_inv in Hs as [Hs _].
    exact (IH Hs k d Hk d' Hd').
Qed.

(** C2, as amended.  For years below 2^53 in magnitude and rate records in
    ascending year order, with a nominal record for the base year and for
    every rate year, the reconstruction returns; the running price index
    after the loop is the product of the factors [1 + rate] in row order;
    and for the record at position [k], every row of its year has
    [preisindex_destatis] equal to the product over the records up to and
    including [k], [umsatz_real_destatis] equal to the year's nominal
    revenue over that index, and [inflation_kumulativ_destatis] equal to
    [(index - 1) * 100]. *)
Theorem C2_chained_index_is_running_product
    (df_nominal : list Nominal.t) (df_destatis : list Destatis.t)
    (base_year : Z) (base_nominal : float) :
  Forall float64_exact (map Nominal.jahr df_nominal) ->
  Forall float64_exact (map Destatis.jahr df_destatis) ->
  nominal_at df_nominal base_year = Ok base_nominal ->
  (forall d, In d df_destatis ->
             exists n, nominal_at df_nominal (Destatis.jahr d) = Ok n) ->
  StronglySorted Z.lt (map Destatis.jahr df_destatis) ->
  exists out,
    destatis_loop df_nominal df_destatis
      (1, loc_set base_year (set_umsatz_real_destatis base_nominal)
            (initial_result df_nominal))
    = Ok (chained_index df_destatis, out) /\
    calculate_real_umsatz_with_destatis df_nominal df_destatis base_year = Ok out /\
    forall k d, nth_error df_destatis k = Some d ->
    exists nominal_umsatz,
      nominal_at df_nominal (Destatis.jahr d) = Ok nominal_umsatz /\
      (exists r, In r out /\ Real.jahr r = Destatis.jahr d) /\
      forall r, In r out -> Real.jahr r = Destatis.jahr d ->
        Real.preisindex_destatis r = chained_index (firstn (S k) df_destatis) /\
        Real.umsatz_real_destatis r = nominal_umsatz / Real.preisindex_destatis r /\
        Real.inflation_kumulativ_destatis r = (Real.preisindex_destatis r - 1) * 100.
Proof.
  intros Hen Hed Hb Hall Hsorted.
  destruct (calculate_real_umsatz_ok_exact _ _ _ _ Hen Hed Hb Hall)
    as (out & Hloop & Hout).
  exists out. rewrite start_rows. split; [exact Hloop|]. split; [exact Hout|].
  intros k d Hk.
  destruct (calculate_real_umsatz_rows_exact _ _ _ _ Hen Hed Hout)
    as (bn & _ & _ & Hrows).
  destruct (Hall d (nth_error_In _ _ Hk)) as [n Hn].
  exists n. split; [exact Hn|].
  assert (Hset : forall i nr r,
             nth_error df_nominal i = Some nr -> nth_error out i = Some r ->
             Nominal.jahr nr = Destatis.jahr d ->
             Real.preisindex_destatis r = chained_index (firstn (S k) df_destatis) /\
             Real.umsatz_real_destatis r = n / Real.preisindex_destatis r /\
             Real.inflation_kumulativ_destatis r
             = (Real.preisindex_destatis r - 1) * 100).
  { intros i nr r Hi Hr Hj.
    destruct (Hrows i nr Hi) as (r' & Hr' & _ & _ & _ & Hchain).
    assert (r' = r) by congruence. subst r'.
    destruct (Hchain k d Hk (eq_sym Hj)) as (n' & Hn' & ->).
    { rewrite Hj. now apply ascending_no_later. }
    assert (n' = n) by congruence. subst n'.
    cbn. auto. }
  split.
  - destruct (nominal_at_in _ _ _ Hn) as (nr & Hin & Hj & _).
    destruct (In_nth_error _ _ Hin) as [i Hi].
    destruct (Hrows i nr Hi) as (r & Hr & Hjr & _).
    exists r. split; [eapply nth_error_In; eauto|congruence].
  - intros r Hin Hj.
    destruct (calculate_real_umsatz_in _ _ _ _ _ Hout Hin) as (i & nr & Hi & Hr).
    destruct (Hrows i nr Hi) as (r' & Hr' & Hjr & _).
    assert (r' = r) by congruence. subst r'.
    apply (Hset i nr r Hi Hr). congruence.
Qed.

(** Nominal revenue for 2020 to 2022 with the rates 0.03 for 2021 and 0.02
    for 2022. *)
Lemma C2_chained_index_is_running_product_witness :
  exists out,
    destatis_loop
      [Nominal.mk 2020 10; Nominal.mk 2021 10.5; Nominal.mk 2022 11]
      [Destatis.mk 2021 0.03; Destatis.mk 2022 0.02]
      (1, loc_set 2020 (set_umsatz_real_destatis 10)
            (initial_result
               [Nominal.mk 2020 10; Nominal.mk 2021 10.5; Nominal.mk 2022 11]))
    = Ok (chained_index [Destatis.mk 2021 0.03; Destatis.mk 2022 0.02], out) /\
    calculate_real_umsatz_with_destatis
      [Nominal.mk 2020 10; Nominal.mk 2021 10.5; Nominal.mk 2022 11]
      [Destatis.mk 2021 0.03; Destatis.mk 2022 0.02] 2020 = Ok out /\
    forall k d,
      nth_error [Destatis.mk 2021 0.03; Destatis.mk 2022 0.02] k = Some d ->
    exists nominal_umsatz,
      nominal_at [Nominal.mk 2020 10; Nominal.mk 2021 10.5; Nominal.mk 2022 11]
                 (Destatis.jahr d) = Ok nominal_umsatz /\
      (exists r, In r out /\ Real.jahr r = Destatis.jahr d) /\
      forall r, In r out -> Real.jahr r = Destatis.jahr d ->
        Real.preisindex_destatis r
        = chained_index (firstn (S k) [Destatis.mk 2021 0.03; Destatis.mk 2022 0.02]) /\
        Real.umsatz_real_destatis r = nominal_umsatz / Real.preisindex_destatis r /\
        Real.inflation_kumulativ_destatis r = (Real.preisindex_destatis r - 1) * 100.
Proof.
  apply (C2_chained_index_is_running_product
           [Nominal.mk 2020 10; Nominal.mk 2021 10.5; Nominal.mk 2022 11]
           [Destatis.mk 2021 0.03; Destatis.mk 2022 0.02] 2020 10).
  - repeat constructor.
  - repeat constructor.
  - reflexivity.
  - intros d [<-|[<-|[]]]; eexists; reflexivity.
  - cbn. repeat constructor; lia.
Defined.

(** C2 as stated fails beyond 2^53.  The rate records for the years 2^53 and
    2^53 + 1 are in ascending order and each year has a nominal record, but
    float64 cannot tell the two years apart: each record is written to both
    rows, with the nominal revenue of the first of them.  The row of 2^53
    ends with the index 2.25 of the second record, not with the product 1.5
    up to its own record, and the row of 2^53 + 1, whose nominal revenue is
    30, ends with the real revenue 20 / 2.25. *)
Lemma C2_counterexample :
  exists out r1 r2,
    StronglySorted Z.lt
      (map Destatis.jahr
         [Destatis.mk 9007199254740992 0.5; Destatis.mk 9007199254740993 0.5]) /\
    calculate_real_umsatz_with_destatis
      [Nominal.mk 2020 10; Nominal.mk 9007199254740992 20;
       Nominal.mk 9007199254740993 30]
      [Destatis.mk 9007199254740992 0.5; Destatis.mk 9007199254740993 0.5] 2020
    = Ok out /\
    out = [Real.mk 2020 10 10 1 0; r1; r2] /\
    Real.jahr r1 = 9007199254740992%Z /\
    Real.jahr r2 = 9007199254740993%Z /\
    chained_index [Destatis.mk 9007199254740992 0.5] = 1.5 /\
    Real.preisindex_destatis r1 = 2.25 /\
    (Real.preisindex_destatis r1 =? chained_index [Destatis.mk 9007199254740992 0.5])
    = false /\
    Real.umsatz_nominal r2 = 30 /\
    Real.umsatz_real_destatis r2 = 20 / 2.25 /\
    (Real.umsatz_real_destatis r2 =? Real.umsatz_nominal r2 / Real.preisindex_destatis r2)
    = false.
Proof.
  do 3 eexists. split; [cbn; repeat constructor; lia|].
  split; [vm_compute; reflexivity|].
  split; [reflexivity|]. repeat split; vm_compute; reflexivity.
Qed.

(** The second example of the specification, evaluated: the rate 0.03 for
    2021 gives the index 1.03 and the real revenue 10.5 / 1.03. *)
Example chained_example :
  calculate_real_umsatz_with_destatis
    [Nominal.mk 2020 10; Nominal.mk 2021 10.5] [Destatis.mk 2021 0.03] 2020
  = Ok [Real.mk 2020 10 10 1 0;
        Real.mk 2021 10.5 (10.5 / 1.03) 1.03 ((1.03 - 1) * 100)].
Proof. vm_compute. reflexivity. Qed.

(** ** A rate record for the base year *)

(** C3 does not hold of the code.  A rate record for the base year is
    applied like any other: with the rate 0.05 for 2020 the base year's
    [preisindex_destatis] is [1 * (1 + 0.05)], not 1.0, and its
    [umsatz_real_destatis] is the nominal revenue over that index, not the
    nominal revenue. *)
Theorem C3_base_year_rate_record_is_applied :
  exists out r,
    calculate_real_umsatz_with_destatis
      [Nominal.mk 2020 10; Nominal.mk 2021 10.5]
      [Destatis.mk 2020 0.05; Destatis.mk 2021 0.03] 2020 = Ok out /\
    nth_error out 0 = Some r /\
    Real.jahr r = 2020%Z /\
    Real.umsatz_nominal r = 10 /\
    Real.preisindex_destatis r = 1 * (1 + 0.05) /\
    (Real.preisindex_destatis r =? 1) = false /\
    Real.umsatz_real_destatis r = 10 / (1 * (1 + 0.05)) /\
    (Real.umsatz_real_destatis r =? 10) = false.
Proof.
  do 2 eexists. split; [vm_compute; reflexivity|].
  split; [reflexivity|]. repeat split; vm_compute; reflexivity.
Qed.

(** ** Years without a rate record *)

Lemma nominal_at_unique (df_nominal : list Nominal.t) (nr : Nominal.t) :
  NoDup (map Nominal.jahr df_nominal) ->
  In nr df_nominal ->
  nominal_at df_nominal (Nominal.jahr nr) = Ok (Nominal.umsatz_nominal nr).
Proof.
  unfold nominal_at.
  induction df_nominal as [|x l IH]; intros Hnd Hin; [contradiction|].
  cbn in Hnd. apply NoDup_cons_iff in Hnd as [Hx Hnd].
  cbn [filter].
  destruct (Z.eqb_spec (Nominal.jahr x) (Nominal.jahr nr)) as [E|E].
  - destruct Hin as [->|Hin]; [reflexivity|].
    exfalso. apply Hx. rewrite E. now apply in_map.
  - destruct Hin as [->|Hin]; [congruence|]. now apply IH.
Qed.

(** C6, as amended.  In a nominal series with one record per year, the
    years being below 2^53 in magnitude, every record whose year has no rate
    record comes out with the defaults: [preisindex_destatis] 1.0,
    [umsatz_real_destatis] equal to its nominal revenue,
    [inflation_kumulativ_destatis] 0.0. *)
Theorem C6_years_without_rate_keep_defaults
    (df_nominal : list Nominal.t) (df_destatis : list Destatis.t)
    (base_year : Z) (out : list Real.t) (i : nat) (nr : Nominal.t) :
  Forall float64_exact (map Nominal.jahr df_nominal) ->
  Forall float64_exact (map Destatis.jahr df_destatis) ->
  NoDup (map Nominal.jahr df_nominal) ->
  calculate_real_umsatz_with_destatis df_nominal df_destatis base_year = Ok out ->
  nth_error df_nominal i = Some nr ->
  (forall d, In d df_destatis -> Destatis.jahr d <> Nominal.jahr nr) ->
  exists r,
    nth_error out i = Some r /\
    Real.jahr r = Nominal.jahr nr /\
    Real.umsatz_nominal r = Nominal.umsatz_nominal nr /\
    Real.preisindex_destatis r = 1 /\
    Real.umsatz_real_destatis r = Nominal.umsatz_nominal nr /\
    Real.inflation_kumulativ_destatis r = 0.
Proof.
  intros Hen Hed Hnd Hout Hi Hno.
  destruct (calculate_real_umsatz_rows_exact _ _ _ _ Hen Hed Hout)
    as (bn & Hbn & _ & Hrows).
  destruct (Hrows i nr Hi) as (r & Hr & Hj & Hn & Hkeep & _).
  exists r. rewrite (Hkeep Hno). split; [now rewrite <- (Hkeep Hno)|].
  unfold start_row. cbn. repeat split.
  destruct (Z.eqb_spec (Nominal.jahr nr) base_year) as [E|E]; [|reflexivity].
  rewrite <- E in Hbn.
  rewrite (nominal_at_unique _ _ Hnd (nth_error_In _ _ Hi)) in Hbn.
  congruence.
Qed.

(** The years 2020 to 2022 with a rate for 2021 only: the record for 2022
    keeps the defaults. *)
Lemma C6_years_without_rate_keep_defaults_witness :
  exists r,
    nth_error [Real.mk 2020 10 10 1 0;
               Real.mk 2021 10.5 (10.5 / 1.03) 1.03 ((1.03 - 1) * 100);
               Real.mk 2022 11 11 1 0] 2 = Some r /\
    Real.jahr r = 2022%Z /\
    Real.umsatz_nominal r = 11 /\
    Real.preisindex_destatis r = 1 /\
    Real.umsatz_real_destatis r = 11 /\
    Real.inflation_kumulativ_destatis r = 0.
Proof.
  apply (C6_years_without_rate_keep_defaults
           [Nominal.mk 2020 10; Nominal.mk 2021 10.5; Nominal.mk 2022 11]
           [Destatis.mk 2021 0.03] 2020
           [Real.mk 2020 10 10 1 0;
            Real.mk 2021 10.5 (10.5 / 1.03) 1.03 ((1.03 - 1) * 100);
            Real.mk 2022 11 11 1 0]
           2 (Nominal.mk 2022 11)).
  - repeat constructor.
  - repeat constructor.
  - cbn. repeat constructor; cbn; intuition lia.
  - vm_compute. reflexivity.
  - reflexivity.
  - intros d [<-|[]]. cbn. lia.
Defined.

(** C6 as stated fails beyond 2^53.  The nominal series has one record for
    each of the years 2020, 2^53 and 2^53 + 1, and the only rate record is
    for 2^53 + 1.  The year 2^53 has no rate record, yet its row does not
    keep the defaults: as floats the two years are equal, so the row is
    written with the index 1.5 and the real revenue 20 / 1.5. *)
Lemma C6_counterexample :
  exists out r,
    NoDup (map Nominal.jahr
             [Nominal.mk 2020 10; Nominal.mk 9007199254740992 20;
              Nominal.mk 9007199254740993 30]) /\
    calculate_real_umsatz_with_destatis
      [Nominal.mk 2020 10; Nominal.mk 9007199254740992 20;
       Nominal.mk 9007199254740993 30]
      [Destatis.mk 9007199254740993 0.5] 2020 = Ok out /\
    nth_error out 1 = Some r /\
    Real.jahr r = 9007199254740992%Z /\
    Z.eqb (Destatis.jahr (Destatis.mk 9007199254740993 0.5)) (Real.jahr r) = false /\
    Real.umsatz_nominal r = 20 /\
    Real.preisindex_destatis r = 1.5 /\
    (Real.preisindex_destatis r =? 1) = false /\
    Real.umsatz_real_destatis r = 20 / 1.5 /\
    (Real.umsatz_real_destatis r =? Real.umsatz_nominal r) = false /\
    Real.inflation_kumulativ_destatis r = 50.
Proof.
  do 2 eexists. split; [cbn; repeat constructor; cbn; intuition lia|].
  split; [vm_compute; reflexivity|].
  split; [reflexivity|]. repeat split; vm_compute; reflexivity.
Qed.

(** ** The comparison *)


Lemma merge_left_jahr (left : list Real.t) (right : list Lakner.t) (c : Combined.t) :
  In c (merge_left left right) ->
  exists l, In l left /\ Combined.jahr c = Real.jahr l.
Proof.
  unfold merge_left. intros H. apply in_flat_map in H as (l & Hl & Hc).
  exists l. split; [exact Hl|].
  destruct (matching right (Real.jahr l)) as [|m ms].
  - destruct Hc as [<-|[]]. reflexivity.
  - unfold join_rows in Hc. apply in_map_iff in Hc as (r & <- & _). reflexivity.
Qed.


Lemma matching_spec (right : list Lakner.t) (jahr : Z) (r : Lakner.t) :
  In r (matching right jahr) <-> In r right /\ Lakner.jahr r = jahr.
Proof.
  unfold matching. rewrite filter_In, Z.eqb_eq. reflexivity.
Qed.




(** ** The closing figures *)

Lemma filter_none {A : Type} (p : A -> bool) (l : list A) :
  (forall x, In x l -> p x = false) -> filter p l = [].
Proof.
  induction l as [|x l IH]; intros H; [reflexivity|].
  cbn. rewrite (H x (or_introl eq_refl)).
  apply IH. intros y Hy. apply H. now right.
Qed.




(** From eight values on the pairwise sum and the sum taken one after the
    other can differ in the last bits: the mean of these nine rates, times
    100, is 6.333333333333334, where adding them one after the other gives
    6.333333333333332. *)
Example mean_of_nine_rates :
  series_mean [0.01; 0.02; 0.03; 0.05; 0.07; 0.08; 0.09; 0.1; 0.12] * 100
  = 6.333333333333334 /\
  arithmetic_mean [0.01; 0.02; 0.03; 0.05; 0.07; 0.08; 0.09; 0.1; 0.12] * 100
  = 6.333333333333332.
Proof. split; vm_compute; reflexivity. Qed.

Lemma add_zero_r (x : float) : Prim2SF x <> S754_zero true -> x + 0 = x.
Proof.
  intros H. apply Prim2SF_inj. rewrite add_spec.
  change (Prim2SF 0) with (S754_zero false).
  unfold SF64add, SFadd.
  destruct (Prim2SF x) as [s|s| |s m e]; try reflexivity.
  destruct s; [congruence|reflexivity].
Qed.

(** Adding the 0.0 that stands in for a missing value changes nothing. *)
Lemma fold_add_skips_filled (s : list float) : forall acc,
  Prim2SF acc <> S754_zero true ->
  fold_left add (map (fun x => if is_nan x then 0 else x) s) acc
  = fold_left add (filter (fun x => negb (is_nan x)) s) acc.
Proof.
  induction s as [|x s IH]; intros acc H; [reflexivity|].
  cbn [map filter fold_left]. destruct (is_nan x); cbn [negb fold_left].
  - rewrite (add_zero_r acc H). now apply IH.
  - apply IH. now apply add_keeps_off_negative_zero.
Qed.




(** The mean skips the missing values: of a series of fewer than eight
    entries it is the arithmetic mean of the entries that are present,
    [nan] when there is none. *)
Theorem mean_skips_missing_values (s : list float) :
  (length s < 8)%nat ->
  series_mean s = arithmetic_mean (filter (fun x => negb (is_nan x)) s).
Proof.
  intros Hlen. unfold series_mean, arithmetic_mean.
  rewrite numpy_sum_short by now rewrite length_map.
  rewrite fold_add_skips_filled by discriminate.
  destruct (filter (fun x => negb (is_nan x)) s) as [|x present];
    [vm_compute|]; reflexivity.
Qed.

Lemma mean_skips_missing_values_witness :
  series_mean [0.02; nan; 0.04] = arithmetic_mean [0.02; 0.04].
Proof.
  apply (mean_skips_missing_values [0.02; nan; 0.04]).
  cbn. lia.
Defined.

(** ** Effects on the caller's frames *)

Lemma store_set_same (s : Store) (p : ref) (o : DataFrame) :
  (p < length s)%nat -> nth_error (store_set s p o) p = Some o.
Proof.
  revert p. induction s as [|x s IH]; intros [|p] H; cbn in *; try lia.
  - reflexivity.
  - apply IH. lia.
Qed.

Lemma store_set_other (s : Store) (p q : ref) (o : DataFrame) :
  p <> q -> nth_error (store_set s p o) q = nth_error s q.
Proof.
  revert p q. induction s as [|x s IH]; intros [|p] [|q] H; cbn; try reflexivity.
  - congruence.
  - apply IH. congruence.
Qed.

Lemma umsatz_columns_rows (b : float) (df : list Umsatz.t) : forall last,
  umsatz_columns (lakner_rows b last df) = df.
Proof.
  induction df as [|r df IH]; intros last; [reflexivity|].
  cbn [lakner_rows umsatz_columns map]. unfold umsatz_columns in IH.
  rewrite IH. destruct r; reflexivity.
Qed.

(** The frame [calculate_inflation_rates] returns has one row for every
    row it was given, in the same order, and in every row the year, the
    nominal and the real revenue are the ones it was given: the function
    adds columns and changes no value of the three columns it reads. *)
Theorem calculate_inflation_rates_keeps_input_columns
    (df : list Umsatz.t) (base_year : Z) (out : list Lakner.t) :
  calculate_inflation_rates df base_year = Ok out ->
  length out = length df /\
  umsatz_columns out = df.
Proof.
  rewrite calculate_inflation_rates_rows.
  destruct (iloc0 (base_year_rows base_year df)) as [base_row|e]; [|discriminate].
  cbn [bind]. intros H. injection H as <-.
  split; [apply lakner_rows_length|apply umsatz_columns_rows].
Qed.

Lemma calculate_inflation_rates_keeps_input_columns_witness :
  length (lakner_rows 1 nan [Umsatz.mk 2020 10 10; Umsatz.mk 2021 11 10.5])
  = length [Umsatz.mk 2020 10 10; Umsatz.mk 2021 11 10.5] /\
  umsatz_columns (lakner_rows 1 nan [Umsatz.mk 2020 10 10; Umsatz.mk 2021 11 10.5])
  = [Umsatz.mk 2020 10 10; Umsatz.mk 2021 11 10.5].
Proof.
  apply (calculate_inflation_rates_keeps_input_columns
           [Umsatz.mk 2020 10 10; Umsatz.mk 2021 11 10.5] 2020).
  vm_compute. reflexivity.
Defined.

(** C9 does not hold of the code.  After
    [calculate_inflation_rates(df, 2020)] the caller's frame is no longer the
    three-column frame that was passed in: the call assigned four columns to
    it and returned the same reference.  The values of its year, nominal and
    real columns are unchanged.  The chained reconstruction, called on the
    same store, works on a copy and leaves the caller's frames as they were. *)
Theorem C9_caller_frame_gets_columns :
  exists s' p rows',
    call_calculate_inflation_rates
      [FrameUmsatz [Umsatz.mk 2020 10 10; Umsatz.mk 2021 11 10.5]] 0%nat 2020
    = Ok (s', p) /\
    p = 0%nat /\
    nth_error s' 0 = Some (FrameLakner rows') /\
    nth_error s' 0
    <> Some (FrameUmsatz [Umsatz.mk 2020 10 10; Umsatz.mk 2021 11 10.5]) /\
    umsatz_columns rows' = [Umsatz.mk 2020 10 10; Umsatz.mk 2021 11 10.5] /\
    call_calculate_real_umsatz_with_destatis
      [FrameNominal [Nominal.mk 2020 10; Nominal.mk 2021 10.5];
       FrameDestatis [Destatis.mk 2021 0.03]] 0%nat 1%nat 2020
    = Ok ([FrameNominal [Nominal.mk 2020 10; Nominal.mk 2021 10.5];
           FrameDestatis [Destatis.mk 2021 0.03];
           FrameReal [Real.mk 2020 10 10 1 0;
                      Real.mk 2021 10.5 (10.5 / 1.03) 1.03 ((1.03 - 1) * 100)]],
          2%nat).
Proof.
  do 3 eexists. split; [vm_compute; reflexivity|].
  split; [reflexivity|]. split; [reflexivity|].
  split; [discriminate|]. split; vm_compute; reflexivity.
Qed.

(** ** Further properties *)

(** A float that is zero, infinite or [nan] divided by itself is [nan]. *)
Lemma div_diag_otherwise (x : float) : finite_nonzero x = false -> x / x = nan.
Proof.
  unfold finite_nonzero; intros H.
  apply Prim2SF_inj; rewrite div_spec.
  change (Prim2SF nan) with S754_nan.
  destruct (Prim2SF x); try discriminate; reflexivity.
Qed.

(** The anchoring condition is sharp: when the ratio of the first base-year
    record is zero, infinite or [nan], the calculation still returns, and
    the price index of that record is [nan]. *)
Theorem base_year_index_undefined
    (df : list Umsatz.t) (base_year : Z) (base_row : Umsatz.t) :
  iloc0 (base_year_rows base_year df) = Ok base_row ->
  finite_nonzero (price_ratio base_row) = false ->
  exists out o,
    calculate_inflation_rates df base_year = Ok out /\
    iloc0 (filter (fun o => Z.eqb (Lakner.jahr o) base_year) out) = Ok o /\
    Lakner.preisindex o = nan /\
    Lakner.inflation_kumulativ o = nan.
Proof.
  intros Hbase Hirr.
  rewrite calculate_inflation_rates_rows, Hbase. cbn [bind].
  destruct (lakner_rows_first (price_ratio base_row) base_year df nan base_row Hbase)
    as (o & Ho & _ & Hp & Hk).
  rewrite (div_diag_otherwise _ Hirr) in Hp, Hk.
  exists (lakner_rows (price_ratio base_row) nan df), o. auto.
Qed.

Lemma base_year_index_undefined_witness :
  exists out o,
    calculate_inflation_rates
      [Umsatz.mk 2020 10 0; Umsatz.mk 2021 11 10.5] 2020 = Ok out /\
    iloc0 (filter (fun o => Z.eqb (Lakner.jahr o) 2020) out) = Ok o /\
    Lakner.preisindex o = nan /\
    Lakner.inflation_kumulativ o = nan.
Proof.
  apply (base_year_index_undefined
           [Umsatz.mk 2020 10 0; Umsatz.mk 2021 11 10.5] 2020 (Umsatz.mk 2020 10 0)).
  - reflexivity.
  - reflexivity.
Defined.

(** The chained reconstruction raises [IndexError] when the nominal series
    has no record for the base year, before any rate record is read. *)
Theorem reconstruction_needs_base_year
    (df_nominal : list Nominal.t) (df_destatis : list Destatis.t) (base_year : Z) :
  (forall r, In r df_nominal -> Nominal.jahr r <> base_year) ->
  calculate_real_umsatz_with_destatis df_nominal df_destatis base_year
  = Raise IndexError.
Proof.
  intros H. unfold calculate_real_umsatz_with_destatis.
  now rewrite (nominal_at_absent _ _ H).
Qed.

Lemma reconstruction_needs_base_year_witness :
  calculate_real_umsatz_with_destatis
    [Nominal.mk 2021 10.5] [Destatis.mk 2021 0.03] 2020 = Raise IndexError.
Proof.
  apply reconstruction_needs_base_year.
  intros r [<-|[]]. cbn. lia.
Defined.

(** The first example of the specification, evaluated: revenue 10.0/10.0 in
    2020 and 11.0/10.5 in 2021 give the price index [(11 / 10.5) / (10 / 10)]
    for 2021, and the annual rate of 2021 equals its cumulative rate. *)
Example implicit_example :
  calculate_inflation_rates [Umsatz.mk 2020 10 10; Umsatz.mk 2021 11 10.5] 2020
  = Ok [Lakner.mk 2020 10 10 1 1 0 nan;
        Lakner.mk 2021 11 10.5 (11 / 10.5) (11 / 10.5 / (10 / 10))
          ((11 / 10.5 / (10 / 10) - 1) * 100)
          ((11 / 10.5 / (10 / 10) / 1 - 1) * 100)].
Proof. vm_compute. reflexivity. Qed.

(** ** More floating-point facts *)

Lemma is_nan_spec (x : float) : is_nan x = true <-> Prim2SF x = S754_nan.
Proof.
  unfold is_nan. rewrite eqb_spec.
  destruct (Prim2SF x) as [s|s| |s m e]; unfold SFeqb, SFcompare.
  - split; discriminate.
  - destruct s; split; discriminate.
  - split; reflexivity.
  - destruct s; rewrite Z.compare_refl, Pos.compare_cont_refl; split; discriminate.
Qed.

Lemma finite_nonzero_is_number (x : float) :
  finite_nonzero x = true -> is_nan x = false.
Proof.
  unfold finite_nonzero. intros H.
  apply not_true_is_false. intros Hn. apply is_nan_spec in Hn.
  rewrite Hn in H. discriminate.
Qed.

(** Rounding a mantissa that is not negative never gives [nan]. *)
Lemma shr_1_nonneg (mrs : shr_record) :
  (0 <= shr_m mrs)%Z -> (0 <= shr_m (shr_1 mrs))%Z.
Proof.
  destruct mrs as [m r s]. cbn. destruct m as [|[p|p|]|p]; cbn; lia.
Qed.

Lemma iter_shr_1_nonneg (p : positive) : forall mrs,
  (0 <= shr_m mrs)%Z -> (0 <= shr_m (iter_pos shr_1 p mrs))%Z.
Proof.
  induction p as [p IH|p IH|]; intros mrs H; cbn.
  - apply IH, IH, shr_1_nonneg, H.
  - apply IH, IH, H.
  - apply shr_1_nonneg, H.
Qed.

Lemma shr_fexp_nonneg (m e : Z) (l : location) :
  (0 <= m)%Z -> (0 <= shr_m (fst (shr_fexp prec emax m e l)))%Z.
Proof.
  intros H. unfold shr_fexp, shr.
  assert (H0 : (0 <= shr_m (shr_record_of_loc m l))%Z)
    by (destruct l as [|[]]; exact H).
  destruct (_ - e)%Z; cbn [fst]; auto.
  now apply iter_shr_1_nonneg.
Qed.

Lemma binary_round_aux_not_nan (sx : bool) (mx ex : Z) (lx : location) :
  (0 <= mx)%Z -> binary_round_aux prec emax sx mx ex lx <> S754_nan.
Proof.
  intros H. unfold binary_round_aux.
  pose proof (shr_fexp_nonneg mx ex lx H) as H1.
  destruct (shr_fexp prec emax mx ex lx) as [mrs' e']. cbn [fst] in H1.
  assert (H2 : (0 <= round_nearest_even (shr_m mrs') (loc_of_shr_record mrs'))%Z).
  { unfold round_nearest_even.
    destruct (loc_of_shr_record mrs') as [|[]]; try lia.
    destruct (Z.even _); lia. }
  pose proof (shr_fexp_nonneg _ e' loc_Exact H2) as H3.
  destruct (shr_fexp prec emax _ e' loc_Exact) as [mrs'' e'']. cbn [fst] in H3.
  destruct (shr_m mrs''); try discriminate; try lia.
  destruct (Z.leb _ _); discriminate.
Qed.

Lemma binary_normalize_not_nan (m e : Z) (sz : bool) :
  binary_normalize prec emax m e sz <> S754_nan.
Proof.
  unfold binary_normalize, binary_round.
  destruct m; try discriminate;
    destruct (shl_align _ _ _); apply binary_round_aux_not_nan; lia.
Qed.

Lemma SF64div_not_nan (sx : bool) (mx : positive) (ex : Z)
    (sy : bool) (my : positive) (ey : Z) :
  SF64div (S754_finite sx mx ex) (S754_finite sy my ey) <> S754_nan.
Proof.
  unfold SF64div, SFdiv, SFdiv_core_binary.
  set (m' := match _ with Z0 => _ | Zpos _ => _ | Zneg _ => _ end).
  assert (Hm : (0 <= m')%Z).
  { unfold m'. destruct (_ - _ - _)%Z; try lia.
    apply Z.shiftl_nonneg. lia. }
  generalize (Z.div_eucl_eq m' (Z.pos my)) (Z.mod_pos_bound m' (Z.pos my)).
  unfold Z.modulo.
  destruct (Z.div_eucl m' (Z.pos my)) as [q r].
  intros He Hb. specialize (He ltac:(lia)); specialize (Hb ltac:(lia)).
  apply binary_round_aux_not_nan. nia.
Qed.

(** The quotient of two finite nonzero floats is a number (it may be zero
    or infinite). *)
Lemma div_is_number (x y : float) :
  finite_nonzero x = true -> finite_nonzero y = true -> is_nan (x / y) = false.
Proof.
  unfold finite_nonzero. intros Hx Hy.
  apply not_true_is_false. intros Hn.
  apply is_nan_spec in Hn. rewrite div_spec in Hn.
  destruct (Prim2SF x); try discriminate.
  destruct (Prim2SF y); try discriminate.
  revert Hn. apply SF64div_not_nan.
Qed.

Lemma sub_one_is_number (x : float) : is_nan x = false -> is_nan (x - 1) = false.
Proof.
  intros H. apply not_true_is_false. intros Hn.
  apply is_nan_spec in Hn. rewrite sub_spec in Hn.
  assert (Hx : Prim2SF x <> S754_nan).
  { intros E. apply is_nan_spec in E. congruence. }
  change (Prim2SF 1) with (S754_finite false 4503599627370496 (-52)) in Hn.
  unfold SF64sub, SFsub in Hn.
  destruct (Prim2SF x) as [s|s| |s m e]; try discriminate; try congruence.
  revert Hn. apply binary_normalize_not_nan.
Qed.

Lemma mul_hundred_is_number (x : float) : is_nan x = false -> is_nan (x * 100) = false.
Proof.
  intros H. apply not_true_is_false. intros Hn.
  apply is_nan_spec in Hn. rewrite mul_spec in Hn.
  assert (Hx : Prim2SF x <> S754_nan).
  { intros E. apply is_nan_spec in E. congruence. }
  change (Prim2SF 100) with (S754_finite false 7036874417766400 (-46)) in Hn.
  unfold SF64mul, SFmul in Hn.
  destruct (Prim2SF x) as [s|s| |s m e]; try discriminate; try congruence.
  revert Hn. apply binary_round_aux_not_nan. lia.
Qed.

Lemma valid_binary_digits (m : positive) (e : Z) :
  valid_binary (S754_finite false m e) = true ->
  ((Z.pos (digits2_pos m) = 53 /\ -1074 <= e <= 971) \/
   (Z.pos (digits2_pos m) < 53 /\ e = -1074))%Z.
Proof.
  unfold valid_binary, SpecFloat.valid_binary, bounded, canonical_mantissa, fexp, emin.
  change prec with 53%Z. change emax with 1024%Z.
  intros H. apply andb_true_iff in H as [H1 H2].
  apply Z.eqb_eq in H1. apply Z.leb_le in H2. lia.
Qed.

Lemma div_eucl_exact (q d : Z) :
  (0 < d)%Z -> Z.div_eucl (q * d) d = (q, 0%Z).
Proof.
  intros Hd.
  generalize (Z.div_eucl_eq (q * d) d) (Z.mod_pos_bound (q * d) d).
  unfold Z.modulo.
  destruct (Z.div_eucl (q * d) d) as [q' r]. intros He Hb.
  specialize (He ltac:(lia)); specialize (Hb ltac:(lia)).
  assert (q' = q) by nia. subst q'. f_equal. nia.
Qed.

Lemma SF64div_one (s : bool) (m : positive) (e : Z) :
  valid_binary (S754_finite s m e) = true ->
  SF64div (S754_finite s m e) (Prim2SF 1) = S754_finite s m e.
Proof.
  intros Hv.
  assert (Hd := valid_binary_digits m e Hv).
  change (Prim2SF 1) with (S754_finite false 4503599627370496 (-52)).
  unfold SF64div, SFdiv, SFdiv_core_binary.
  rewrite xorb_false_r.
  change (Zdigits2 (Z.pos 4503599627370496)) with 53%Z.
  change (Zdigits2 (Z.pos m)) with (Z.pos (digits2_pos m)).
  unfold fexp, emin. change prec with 53%Z. change emax with 1024%Z.
  set (d := Z.pos (digits2_pos m)) in *.
  assert (Hnl : new_location 4503599627370496 0 = loc_Exact) by reflexivity.
  destruct (Z.eq_dec
              (Z.min (Z.max (d + e - (53 + -52) - 53) (3 - 1024 - 53)) (e - -52))
              (e - 1)) as [E|E].
  - rewrite E. replace (e - -52 - (e - 1))%Z with 53%Z by lia.
    cbv beta iota zeta.
    rewrite Z.shiftl_mul_pow2 by lia.
    replace (Z.pos m * 2 ^ 53)%Z with (Z.pos m~0 * 4503599627370496)%Z by lia.
    rewrite div_eucl_exact by lia. rewrite Hnl.
    unfold binary_round_aux, shr_fexp.
    change (Zdigits2 (Z.pos m~0)) with (Z.pos (Pos.succ (digits2_pos m))).
    unfold fexp, emin. change prec with 53%Z. change emax with 1024%Z.
    rewrite Pos2Z.inj_succ. fold d.
    replace (Z.max (Z.succ d + (e - 1) - 53) (3 - 1024 - 53) - (e - 1))%Z
      with 1%Z by lia.
    cbn [shr shr_record_of_loc iter_pos shr_1 shr_m shr_r shr_s orb
         loc_of_shr_record round_nearest_even].
    change (Zdigits2 (Z.pos m)) with d.
    replace (Z.max (d + (e - 1 + 1) - 53) (3 - 1024 - 53) - (e - 1 + 1))%Z
      with 0%Z by lia.
    cbn [shr shr_m].
    replace (e - 1 + 1)%Z with e by lia.
    replace (e <=? 1024 - 53)%Z with true by (symmetry; apply Z.leb_le; lia).
    reflexivity.
  - assert (E' : Z.min (Z.max (d + e - (53 + -52) - 53) (3 - 1024 - 53)) (e - -52) = e)
      by lia.
    rewrite E'. replace (e - -52 - e)%Z with 52%Z by lia.
    cbv beta iota zeta.
    rewrite Z.shiftl_mul_pow2 by lia.
    change (2 ^ 52)%Z with 4503599627370496%Z.
    rewrite div_eucl_exact by lia. rewrite Hnl.
    unfold binary_round_aux, shr_fexp.
    change (Zdigits2 (Z.pos m)) with d.
    unfold fexp, emin. change prec with 53%Z. change emax with 1024%Z.
    replace (Z.max (d + e - 53) (3 - 1024 - 53) - e)%Z with 0%Z by lia.
    cbn [shr shr_record_of_loc shr_m shr_r shr_s orb
         loc_of_shr_record round_nearest_even].
    change (Zdigits2 (Z.pos m)) with d.
    replace (Z.max (d + e - 53) (3 - 1024 - 53) - e)%Z with 0%Z by lia.
    cbn [shr shr_m].
    replace (e <=? 1024 - 53)%Z with true by (symmetry; apply Z.leb_le; lia).
    reflexivity.
Qed.

(** Division by [1.0] is exact, for every float. *)
Lemma div_one (x : float) : x / 1 = x.
Proof.
  apply Prim2SF_inj. rewrite div_spec.
  pose proof (Prim2SF_valid x) as Hv.
  destruct (Prim2SF x) as [s|s| |s m e].
  - destruct s; reflexivity.
  - destruct s; reflexivity.
  - reflexivity.
  - now apply SF64div_one.
Qed.

(** ** Where the annual rate is missing *)

Lemma lakner_rows_first_annual (b : float) (df : list Umsatz.t) (o : Lakner.t) :
  nth_error (lakner_rows b nan df) 0 = Some o ->
  Lakner.inflation_jaehrlich o = nan.
Proof.
  destruct df as [|r df]; [discriminate|].
  cbn [lakner_rows nth_error]. intros H. injection H as <-.
  cbn. now rewrite div_nan_r.
Qed.

Lemma calculate_inflation_rates_inv (df : list Umsatz.t) (base_year : Z)
    (out : list Lakner.t) :
  calculate_inflation_rates df base_year = Ok out ->
  exists base_row,
    iloc0 (base_year_rows base_year df) = Ok base_row /\
    out = lakner_rows (price_ratio base_row) nan df.
Proof.
  rewrite calculate_inflation_rates_rows.
  destruct (iloc0 (base_year_rows base_year df)) as [base_row|e]; [|discriminate].
  cbn [bind]. intros H. injection H as <-. eauto.
Qed.

Lemma annual_rate_nan_at (df : list Umsatz.t) (base_year : Z) (out : list Lakner.t) :
  calculate_inflation_rates df base_year = Ok out ->
  (forall o, In o out -> finite_nonzero (Lakner.preisindex o) = true) ->
  forall i o, nth_error out i = Some o ->
    is_nan (Lakner.inflation_jaehrlich o) = Nat.eqb i 0.
Proof.
  intros Hout Hfin i o Hi.
  destruct (calculate_inflation_rates_inv _ _ _ Hout) as (base_row & _ & ->).
  destruct i as [|i].
  - rewrite (lakner_rows_first_annual _ _ _ Hi). reflexivity.
  - assert (Hnum : forall x, In x (lakner_rows (price_ratio base_row) nan df) ->
                             is_nan (Lakner.preisindex x) = false)
      by (intros x Hx; apply finite_nonzero_is_number; now apply Hfin).
    destruct (lakner_rows_annual _ _ _ Hnum) as [_ HS].
    destruct (nth_error (lakner_rows (price_ratio base_row) nan df) i) as [p|] eqn:Hp.
    + rewrite (HS i p o Hp Hi). cbn [Nat.eqb].
      apply mul_hundred_is_number, sub_one_is_number, div_is_number.
      * apply Hfin. eapply nth_error_In; eauto.
      * apply Hfin. eapply nth_error_In; eauto.
    + exfalso. apply nth_error_None in Hp.
      assert (S i < length (lakner_rows (price_ratio base_row) nan df))%nat
        by (apply nth_error_Some; congruence).
      lia.
Qed.

(** On a result whose price indices are all finite and nonzero, the annual
    rate is missing at the first row and nowhere else: it is [nan] at
    position 0, whatever the year of that row, and a number at every later
    position. *)
Theorem annual_rate_missing_only_in_first_row
    (df : list Umsatz.t) (base_year : Z) (out : list Lakner.t) :
  calculate_inflation_rates df base_year = Ok out ->
  (forall o, In o out -> finite_nonzero (Lakner.preisindex o) = true) ->
  forall i o, nth_error out i = Some o ->
    is_nan (Lakner.inflation_jaehrlich o) = Nat.eqb i 0.
Proof.
  exact (annual_rate_nan_at df base_year out).
Qed.

Lemma annual_rate_missing_only_in_first_row_witness :
  is_nan (Lakner.inflation_jaehrlich
            (Lakner.mk 2020 10 10 1 1 0 ((1 / 0.9 - 1) * 100)))
  = Nat.eqb 1 0.
Proof.
  apply (annual_rate_missing_only_in_first_row
           [Umsatz.mk 2019 9 10; Umsatz.mk 2020 10 10; Umsatz.mk 2021 11 10] 2020
           [Lakner.mk 2019 9 10 0.9 0.9 ((0.9 - 1) * 100) nan;
            Lakner.mk 2020 10 10 1 1 0 ((1 / 0.9 - 1) * 100);
            Lakner.mk 2021 11 10 1.1 1.1 ((1.1 - 1) * 100) ((1.1 / 1 - 1) * 100)]).
  - vm_compute. reflexivity.
  - intros o [<-|[<-|[<-|[]]]]; reflexivity.
  - reflexivity.
Defined.

(** After a row whose price index is exactly 1.0, as the base row, the
    annual rate of the next row equals its cumulative rate. *)
Theorem annual_rate_after_index_one
    (df : list Umsatz.t) (base_year : Z) (out : list Lakner.t)
    (i : nat) (p o : Lakner.t) :
  calculate_inflation_rates df base_year = Ok out ->
  (forall x, In x out -> is_nan (Lakner.preisindex x) = false) ->
  nth_error out i = Some p ->
  nth_error out (S i) = Some o ->
  Lakner.preisindex p = 1 ->
  Lakner.inflation_jaehrlich o = Lakner.inflation_kumulativ o.
Proof.
  intros Hout Hnum Hp Ho Hone.
  destruct (calculate_inflation_rates_inv _ _ _ Hout) as (base_row & _ & ->).
  destruct (lakner_rows_annual _ _ _ Hnum) as [_ HS].
  rewrite (HS i p o Hp Ho), Hone, div_one.
  assert (Hlen : (S i < length df)%nat).
  { rewrite <- (lakner_rows_length (price_ratio base_row) df nan).
    apply nth_error_Some. congruence. }
  destruct (nth_error df (S i)) as [r|] eqn:Hr;
    [|apply nth_error_None in Hr; lia].
  destruct (lakner_rows_nth (price_ratio base_row) df nan (S i) r Hr)
    as (o' & Ho' & _ & _ & _ & _ & Hpi & Hk).
  assert (o' = o) by congruence. subst o'.
  now rewrite Hk, Hpi.
Qed.

Lemma annual_rate_after_index_one_witness :
  Lakner.inflation_jaehrlich
    (Lakner.mk 2021 11 10.5 (11 / 10.5) (11 / 10.5 / (10 / 10))
       ((11 / 10.5 / (10 / 10) - 1) * 100) ((11 / 10.5 / (10 / 10) / 1 - 1) * 100))
  = Lakner.inflation_kumulativ
      (Lakner.mk 2021 11 10.5 (11 / 10.5) (11 / 10.5 / (10 / 10))
         ((11 / 10.5 / (10 / 10) - 1) * 100) ((11 / 10.5 / (10 / 10) / 1 - 1) * 100)).
Proof.
  apply (annual_rate_after_index_one
           [Umsatz.mk 2020 10 10; Umsatz.mk 2021 11 10.5] 2020
           [Lakner.mk 2020 10 10 1 1 0 nan;
            Lakner.mk 2021 11 10.5 (11 / 10.5) (11 / 10.5 / (10 / 10))
              ((11 / 10.5 / (10 / 10) - 1) * 100)
              ((11 / 10.5 / (10 / 10) / 1 - 1) * 100)]
           0 (Lakner.mk 2020 10 10 1 1 0 nan)).
  - vm_compute. reflexivity.
  - intros x [<-|[<-|[]]]; reflexivity.
  - reflexivity.
  - reflexivity.
  - reflexivity.
Defined.

(** ** The printed table and the annual bars *)






(** ** More on the chained reconstruction *)

Lemma nominal_at_ok_iff (df_nominal : list Nominal.t) (jahr : Z) :
  (exists n, nominal_at df_nominal jahr = Ok n) <->
  (exists r, In r df_nominal /\ Nominal.jahr r = jahr).
Proof.
  split.
  - intros [n Hn]. destruct (nominal_at_in _ _ _ Hn) as (r & Hin & Hj & _). eauto.
  - intros (r & Hin & <-). now apply nominal_at_present.
Qed.

(** The reconstruction returns exactly when the nominal series has a record
    for the base year and, for every rate record, a record whose year is, as
    a float64, the year of the rate record.  For years below 2^53 in
    magnitude that is: a record for the base year and for the year of every
    rate record. *)
Theorem reconstruction_returns_iff
    (df_nominal : list Nominal.t) (df_destatis : list Destatis.t) (base_year : Z) :
  ((exists out,
       calculate_real_umsatz_with_destatis df_nominal df_destatis base_year = Ok out)
   <->
   (exists r, In r df_nominal /\ Nominal.jahr r = base_year) /\
   (forall d, In d df_destatis ->
              exists r, In r df_nominal /\
                        same_year (Nominal.jahr r) (Destatis.jahr d) = true)) /\
  (Forall float64_exact (map Nominal.jahr df_nominal) ->
   Forall float64_exact (map Destatis.jahr df_destatis) ->
   ((exists out,
        calculate_real_umsatz_with_destatis df_nominal df_destatis base_year = Ok out)
    <->
    (exists r, In r df_nominal /\ Nominal.jahr r = base_year) /\
    (forall d, In d df_destatis ->
               exists r, In r df_nominal /\ Nominal.jahr r = Destatis.jahr d))).
Proof.
  assert (Hfloat :
    (exists out,
        calculate_real_umsatz_with_destatis df_nominal df_destatis base_year = Ok out)
    <->
    (exists r, In r df_nominal /\ Nominal.jahr r = base_year) /\
    (forall d, In d df_destatis ->
               exists r, In r df_nominal /\
                         same_year (Nominal.jahr r) (Destatis.jahr d) = true)).
  { split.
    - intros [out Hout].
      destruct (calculate_real_umsatz_inv _ _ _ _ Hout) as (bn & p & Hb & Hloop).
      split; [apply nominal_at_ok_iff; eauto|].
      intros d Hd. apply nominal_at_float_ok_iff.
      destruct (nominal_at_float_cases df_nominal (float64_of_int (Destatis.jahr d)))
        as [Hn|Hn]; [exact Hn|].
      rewrite (destatis_loop_raise df_nominal df_destatis d Hd Hn) in Hloop.
      discriminate.
    - intros [Hb Hall].
      apply nominal_at_ok_iff in Hb as [bn Hb].
      destruct (calculate_real_umsatz_ok df_nominal df_destatis base_year bn Hb)
        as (out & _ & Hout); [|eauto].
      intros d Hd. apply nominal_at_float_ok_iff. now apply Hall. }
  split; [exact Hfloat|].
  intros Hen Hed. rewrite Hfloat.
  assert (Hsame : forall d r, In d df_destatis -> In r df_nominal ->
            same_year (Nominal.jahr r) (Destatis.jahr d) = true <->
            Nominal.jahr r = Destatis.jahr d).
  { intros d r Hd Hr.
    rewrite (same_year_exact _ _ (exact_in Nominal.jahr _ r Hen Hr)
               (exact_in Destatis.jahr _ d Hed Hd)).
    apply Z.eqb_eq. }
  split; intros [Hb Hall]; (split; [exact Hb|]); intros d Hd;
    destruct (Hall d Hd) as (r & Hr & Hj); exists r; (split; [exact Hr|]);
    now apply (Hsame d r Hd Hr).
Qed.

(** The result is the nominal frame with three more columns: the years and
    the nominal revenues come out as they went in, row by row. *)
Theorem reconstruction_keeps_nominal_columns
    (df_nominal : list Nominal.t) (df_destatis : list Destatis.t)
    (base_year : Z) (out : list Real.t) :
  calculate_real_umsatz_with_destatis df_nominal df_destatis base_year = Ok out ->
  map Real.jahr out = map Nominal.jahr df_nominal /\
  map Real.umsatz_nominal out = map Nominal.umsatz_nominal df_nominal.
Proof.
  intros Hout.
  destruct (calculate_real_umsatz_rows _ _ _ _ Hout) as (bn & _ & Hlen & Hrows).
  split; apply nth_error_ext; intros i; rewrite !nth_error_map;
    destruct (nth_error df_nominal i) as [nr|] eqn:Hi.
  - destruct (Hrows i nr Hi) as (r & -> & Hj & _). cbn. now rewrite Hj.
  - apply nth_error_None in Hi.
    rewrite (proj2 (nth_error_None out i)) by lia. reflexivity.
  - destruct (Hrows i nr Hi) as (r & -> & _ & Hn & _). cbn. now rewrite Hn.
  - apply nth_error_None in Hi.
    rewrite (proj2 (nth_error_None out i)) by lia. reflexivity.
Qed.

Lemma reconstruction_keeps_nominal_columns_witness :
  map Real.jahr
    [Real.mk 2020 10 10 1 0;
     Real.mk 2021 10.5 (10.5 / 1.03) 1.03 ((1.03 - 1) * 100)]
  = map Nominal.jahr [Nominal.mk 2020 10; Nominal.mk 2021 10.5] /\
  map Real.umsatz_nominal
    [Real.mk 2020 10 10 1 0;
     Real.mk 2021 10.5 (10.5 / 1.03) 1.03 ((1.03 - 1) * 100)]
  = map Nominal.umsatz_nominal [Nominal.mk 2020 10; Nominal.mk 2021 10.5].
Proof.
  apply (reconstruction_keeps_nominal_columns
           [Nominal.mk 2020 10; Nominal.mk 2021 10.5] [Destatis.mk 2021 0.03] 2020).
  vm_compute. reflexivity.
Defined.

(** The chain follows the rows of [df_destatis], not the years: for years
    below 2^53 in magnitude, whatever the order of the rate records, and
    also when a year occurs more than once, the rows of a year end with the
    values of the last record that names it, the index being the product of
    the factors of all records up to and including that one. *)
Theorem last_rate_record_of_a_year_wins
    (df_nominal : list Nominal.t) (df_destatis : list Destatis.t)
    (base_year : Z) (out : list Real.t) (k : nat) (d : Destatis.t) :
  Forall float64_exact (map Nominal.jahr df_nominal) ->
  Forall float64_exact (map Destatis.jahr df_destatis) ->
  calculate_real_umsatz_with_destatis df_nominal df_destatis base_year = Ok out ->
  nth_error df_destatis k = Some d ->
  (forall d', In d' (skipn (S k) df_destatis) -> Destatis.jahr d' <> Destatis.jahr d) ->
  exists nominal_umsatz,
    nominal_at df_nominal (Destatis.jahr d) = Ok nominal_umsatz /\
    forall r, In r out -> Real.jahr r = Destatis.jahr d ->
      Real.preisindex_destatis r = chained_index (firstn (S k) df_destatis) /\
      Real.umsatz_real_destatis r
      = nominal_umsatz / chained_index (firstn (S k) df_destatis) /\
      Real.inflation_kumulativ_destatis r
      = (chained_index (firstn (S k) df_destatis) - 1) * 100.
Proof.
  intros Hen Hed Hout Hk Hlast.
  destruct (calculate_real_umsatz_rows_exact _ _ _ _ Hen Hed Hout)
    as (bn & _ & _ & Hrows).
  destruct (nominal_at_cases df_nominal (Destatis.jahr d)) as [[n Hn]|Hn].
  - exists n. split; [exact Hn|].
    intros r Hin Hj.
    destruct (calculate_real_umsatz_in _ _ _ _ _ Hout Hin) as (i & nr & Hi & Hr).
    destruct (Hrows i nr Hi) as (r' & Hr' & Hjr & _ & _ & Hchain).
    assert (r' = r) by congruence. subst r'.
    assert (Hyear : Destatis.jahr d = Nominal.jahr nr) by congruence.
    assert (Hlater : forall d', In d' (skipn (S k) df_destatis) ->
                                Destatis.jahr d' <> Nominal.jahr nr)
      by (intros d' Hd'; rewrite <- Hyear; now apply Hlast).
    destruct (Hchain k d Hk Hyear Hlater) as (n' & Hn' & ->).
    assert (n' = n) by congruence. subst n'. cbn. auto.
  - exfalso.
    assert (Hin : In d df_destatis) by (eapply nth_error_In; eauto).
    rewrite (calculate_real_umsatz_missing_exact df_nominal df_destatis base_year d
               Hen (exact_in Destatis.jahr df_destatis d Hed Hin) Hin Hn) in Hout.
    discriminate.
Qed.

(** Rates for 2022 and 2021 in that order, and 2021 named twice. *)
Lemma last_rate_record_of_a_year_wins_witness :
  exists nominal_umsatz,
    nominal_at [Nominal.mk 2020 10; Nominal.mk 2021 10.5; Nominal.mk 2022 11] 2021
    = Ok nominal_umsatz /\
    forall r,
      In r [Real.mk 2020 10 10 1 0;
            Real.mk 2021 10.5 (10.5 / (1 * (1 + 0.03) * (1 + 0.02) * (1 + 0.04)))
              (1 * (1 + 0.03) * (1 + 0.02) * (1 + 0.04))
              ((1 * (1 + 0.03) * (1 + 0.02) * (1 + 0.04) - 1) * 100);
            Real.mk 2022 11 (11 / (1 * (1 + 0.03) * (1 + 0.02)))
              (1 * (1 + 0.03) * (1 + 0.02))
              ((1 * (1 + 0.03) * (1 + 0.02) - 1) * 100)] ->
      Real.jahr r = 2021%Z ->
      Real.preisindex_destatis r
      = chained_index
          (firstn 3 [Destatis.mk 2021 0.03; Destatis.mk 2022 0.02;
                     Destatis.mk 2021 0.04]) /\
      Real.umsatz_real_destatis r
      = nominal_umsatz
        / chained_index
            (firstn 3 [Destatis.mk 2021 0.03; Destatis.mk 2022 0.02;
                       Destatis.mk 2021 0.04]) /\
      Real.inflation_kumulativ_destatis r
      = (chained_index
           (firstn 3 [Destatis.mk 2021 0.03; Destatis.mk 2022 0.02;
                      Destatis.mk 2021 0.04]) - 1) * 100.
Proof.
  apply (last_rate_record_of_a_year_wins
           [Nominal.mk 2020 10; Nominal.mk 2021 10.5; Nominal.mk 2022 11]
           [Destatis.mk 2021 0.03; Destatis.mk 2022 0.02; Destatis.mk 2021 0.04]
           2020 _ 2 (Destatis.mk 2021 0.04)).
  - repeat constructor.
  - repeat constructor.
  - vm_compute. reflexivity.
  - reflexivity.
  - intros d' [].
Defined.

Lemma last_occurrence (rows : list Destatis.t) (jahr : Z) :
  (forall d, In d rows -> Destatis.jahr d <> jahr) \/
  (exists k d,
      nth_error rows k = Some d /\ Destatis.jahr d = jahr /\
      forall d', In d' (skipn (S k) rows) -> Destatis.jahr d' <> jahr).
Proof.
  induction rows as [|x rows IH].
  - left. intros d [].
  - destruct IH as [Hno|(k & d & Hk & Hj & Hlater)].
    + destruct (Z.eq_dec (Destatis.jahr x) jahr) as [E|E].
      * right. exists 0%nat, x. cbn. auto.
      * left. intros d [<-|Hd]; auto.
    + right. exists (S k), d. cbn [nth_error skipn]. auto.
Qed.

Lemma in_firstn {A : Type} (n : nat) (l : list A) (x : A) :
  In x (firstn n l) -> In x l.
Proof.
  revert l. induction n as [|n IH]; intros [|a l] H; cbn in *; try contradiction.
  destruct H as [->|H]; auto.
Qed.

Lemma chained_index_zero_rates (rows : list Destatis.t) :
  (forall d, In d rows -> Destatis.inflation_rate_jahr d = 0) ->
  chained_index rows = 1.
Proof.
  unfold chained_index, chained_index_from.
  induction rows as [|d rows IH]; intros H; [reflexivity|].
  cbn [map fold_left]. rewrite (H d (or_introl eq_refl)).
  change (1 * (1 + 0)) with 1.
  apply IH. intros x Hx. apply H. now right.
Qed.

(** What the reconstruction leaves in row [i], by cases on whether a rate
    record names its year. *)
Lemma reconstruction_row_cases
    (df_nominal : list Nominal.t) (df_destatis : list Destatis.t)
    (base_year : Z) (out : list Real.t) (i : nat) (nr : Nominal.t) :
  Forall float64_exact (map Nominal.jahr df_nominal) ->
  Forall float64_exact (map Destatis.jahr df_destatis) ->
  NoDup (map Nominal.jahr df_nominal) ->
  calculate_real_umsatz_with_destatis df_nominal df_destatis base_year = Ok out ->
  nth_error df_nominal i = Some nr ->
  exists r,
    nth_error out i = Some r /\
    ((forall d, In d df_destatis -> Destatis.jahr d <> Nominal.jahr nr) /\
     r = Real.mk (Nominal.jahr nr) (Nominal.umsatz_nominal nr)
                 (Nominal.umsatz_nominal nr) 1 0
     \/
     exists k d,
       nth_error df_destatis k = Some d /\ Destatis.jahr d = Nominal.jahr nr /\
       r = Real.mk (Nominal.jahr nr) (Nominal.umsatz_nominal nr)
             (Nominal.umsatz_nominal nr / chained_index (firstn (S k) df_destatis))
             (chained_index (firstn (S k) df_destatis))
             ((chained_index (firstn (S k) df_destatis) - 1) * 100)).
Proof.
  intros Hen Hed Hnd Hout Hi.
  destruct (calculate_real_umsatz_rows_exact _ _ _ _ Hen Hed Hout)
    as (bn & Hbn & _ & Hrows).
  destruct (Hrows i nr Hi) as (r & Hr & _ & _ & Hkeep & Hchain).
  exists r. split; [exact Hr|].
  destruct (last_occurrence df_destatis (Nominal.jahr nr))
    as [Hno|(k & d & Hk & Hj & Hlater)].
  - left. split; [exact Hno|].
    rewrite (Hkeep Hno). unfold start_row.
    destruct (Z.eqb_spec (Nominal.jahr nr) base_year) as [E|E]; [|reflexivity].
    rewrite <- E in Hbn.
    rewrite (nominal_at_unique _ _ Hnd (nth_error_In _ _ Hi)) in Hbn.
    injection Hbn as <-. reflexivity.
  - right. exists k, d. split; [exact Hk|]. split; [exact Hj|].
    destruct (Hchain k d Hk Hj Hlater) as (n & Hn & ->).
    rewrite Hj in Hn.
    rewrite (nominal_at_unique _ _ Hnd (nth_error_In _ _ Hi)) in Hn.
    injection Hn as <-. reflexivity.
Qed.

(** With one nominal record per year, the years being below 2^53 in
    magnitude, every row of the result satisfies the two relations of the
    loop body, the rows the loop never touched included: the real revenue
    is the nominal revenue over the price index, and the cumulative
    inflation is [(index - 1) * 100]. *)
Theorem reconstruction_rows_are_consistent
    (df_nominal : list Nominal.t) (df_destatis : list Destatis.t)
    (base_year : Z) (out : list Real.t) (r : Real.t) :
  Forall float64_exact (map Nominal.jahr df_nominal) ->
  Forall float64_exact (map Destatis.jahr df_destatis) ->
  NoDup (map Nominal.jahr df_nominal) ->
  calculate_real_umsatz_with_destatis df_nominal df_destatis base_year = Ok out ->
  In r out ->
  Real.umsatz_real_destatis r = Real.umsatz_nominal r / Real.preisindex_destatis r /\
  Real.inflation_kumulativ_destatis r = (Real.preisindex_destatis r - 1) * 100.
Proof.
  intros Hen Hed Hnd Hout Hin.
  destruct (calculate_real_umsatz_in _ _ _ _ _ Hout Hin) as (i & nr & Hi & Hr).
  destruct (reconstruction_row_cases _ _ _ _ i nr Hen Hed Hnd Hout Hi)
    as (r' & Hr' & [[_ ->]|(k & d & _ & _ & ->)]);
    assert (Heq : nth_error out i = Some r) by exact Hr;
    rewrite Hr' in Heq; injection Heq as <-; cbn.
  - now rewrite div_one.
  - auto.
Qed.

Lemma reconstruction_rows_are_consistent_witness :
  Real.umsatz_real_destatis (Real.mk 2022 11 11 1 0)
  = Real.umsatz_nominal (Real.mk 2022 11 11 1 0)
    / Real.preisindex_destatis (Real.mk 2022 11 11 1 0) /\
  Real.inflation_kumulativ_destatis (Real.mk 2022 11 11 1 0)
  = (Real.preisindex_destatis (Real.mk 2022 11 11 1 0) - 1) * 100.
Proof.
  apply (reconstruction_rows_are_consistent
           [Nominal.mk 2020 10; Nominal.mk 2021 10.5; Nominal.mk 2022 11]
           [Destatis.mk 2021 0.03] 2020
           [Real.mk 2020 10 10 1 0;
            Real.mk 2021 10.5 (10.5 / 1.03) 1.03 ((1.03 - 1) * 100);
            Real.mk 2022 11 11 1 0]).
  - repeat constructor.
  - repeat constructor.
  - cbn. repeat constructor; cbn; intuition lia.
  - vm_compute. reflexivity.
  - right. right. left. reflexivity.
Defined.

(** Rates of zero change nothing: with one nominal record per year, the
    years being below 2^53 in magnitude, and every rate equal to 0.0, the
    result is the copy of the nominal frame with its defaults, real revenue
    equal to nominal revenue, price index 1.0 and cumulative inflation 0.0
    in every row. *)
Theorem zero_rates_give_the_nominal_series
    (df_nominal : list Nominal.t) (df_destatis : list Destatis.t)
    (base_year : Z) (out : list Real.t) :
  Forall float64_exact (map Nominal.jahr df_nominal) ->
  Forall float64_exact (map Destatis.jahr df_destatis) ->
  NoDup (map Nominal.jahr df_nominal) ->
  (forall d, In d df_destatis -> Destatis.inflation_rate_jahr d = 0) ->
  calculate_real_umsatz_with_destatis df_nominal df_destatis base_year = Ok out ->
  out = initial_result df_nominal.
Proof.
  intros Hen Hed Hnd Hzero Hout.
  destruct (calculate_real_umsatz_rows _ _ _ _ Hout) as (bn & _ & Hlen & _).
  apply nth_error_ext. intros i. unfold initial_result. rewrite nth_error_map.
  destruct (nth_error df_nominal i) as [nr|] eqn:Hi.
  - destruct (reconstruction_row_cases _ _ _ _ i nr Hen Hed Hnd Hout Hi)
      as (r & -> & [[_ ->]|(k & d & _ & _ & ->)]); cbn [option_map];
      [reflexivity|].
    rewrite chained_index_zero_rates
      by (intros x Hx; apply Hzero; now apply (in_firstn (S k))).
    rewrite div_one. reflexivity.
  - apply nth_error_None in Hi.
    rewrite (proj2 (nth_error_None out i)) by lia. reflexivity.
Qed.

Lemma zero_rates_give_the_nominal_series_witness :
  [Real.mk 2020 10 10 1 0; Real.mk 2021 10.5 10.5 1 0; Real.mk 2022 11 11 1 0]
  = initial_result [Nominal.mk 2020 10; Nominal.mk 2021 10.5; Nominal.mk 2022 11].
Proof.
  apply (zero_rates_give_the_nominal_series
           [Nominal.mk 2020 10; Nominal.mk 2021 10.5; Nominal.mk 2022 11]
           [Destatis.mk 2021 0; Destatis.mk 2022 0] 2020).
  - repeat constructor.
  - repeat constructor.
  - cbn. repeat constructor; cbn; intuition lia.
  - intros d [<-|[<-|[]]]; reflexivity.
  - vm_compute. reflexivity.
Defined.

Lemma last_match {A : Type} (p : A -> bool) (rows : list A) :
  (forall d, In d rows -> p d = false) \/
  (exists k d,
      nth_error rows k = Some d /\ p d = true /\
      forall d', In d' (skipn (S k) rows) -> p d' = false).
Proof.
  induction rows as [|x rows IH].
  - left. intros d [].
  - destruct IH as [Hno|(k & d & Hk & Hp & Hlater)].
    + destruct (p x) eqn:E.
      * right. exists 0%nat, x. cbn. auto.
      * left. intros d [<-|Hd]; auto.
    + right. exists (S k), d. cbn [nth_error skipn]. auto.
Qed.

(** The loop tells years apart as floats.  Two nominal rows whose years are
    the same float64, as 2^53 and 2^53 + 1 are, are written by the same
    rate records: once a rate record matches them, they come out with the
    same price index, the same cumulative inflation and the same real
    revenue, whatever their own nominal revenues are. *)
Theorem rows_of_one_float_year_share_values
    (df_nominal : list Nominal.t) (df_destatis : list Destatis.t)
    (base_year : Z) (out : list Real.t)
    (i j : nat) (ni nj : Nominal.t) (d : Destatis.t) :
  calculate_real_umsatz_with_destatis df_nominal df_destatis base_year = Ok out ->
  nth_error df_nominal i = Some ni ->
  nth_error df_nominal j = Some nj ->
  float64_of_int (Nominal.jahr ni) = float64_of_int (Nominal.jahr nj) ->
  In d df_destatis ->
  same_year (Nominal.jahr ni) (Destatis.jahr d) = true ->
  exists ri rj,
    nth_error out i = Some ri /\
    nth_error out j = Some rj /\
    Real.preisindex_destatis ri = Real.preisindex_destatis rj /\
    Real.inflation_kumulativ_destatis ri = Real.inflation_kumulativ_destatis rj /\
    Real.umsatz_real_destatis ri = Real.umsatz_real_destatis rj.
Proof.
  intros Hout Hi Hj Hsame Hd Hmatch.
  destruct (calculate_real_umsatz_rows _ _ _ _ Hout) as (bn & _ & _ & Hrows).
  destruct (Hrows i ni Hi) as (ri & Hri & _ & _ & _ & Hseti).
  destruct (Hrows j nj Hj) as (rj & Hrj & _ & _ & _ & Hsetj).
  exists ri, rj. split; [exact Hri|]. split; [exact Hrj|].
  destruct (last_match (fun x => same_year (Nominal.jahr ni) (Destatis.jahr x))
              df_destatis) as [Hno|(k & dk & Hk & Hp & Hlater)].
  - rewrite (Hno d Hd) in Hmatch. discriminate.
  - destruct (Hseti k dk Hk Hp Hlater) as (n & Hn & ->).
    unfold same_year in Hsetj, Hp, Hlater. rewrite Hsame in Hp, Hlater.
    destruct (Hsetj k dk Hk Hp Hlater) as (n' & Hn' & ->).
    assert (n' = n) by congruence. subst n'. cbn. auto.
Qed.

(** Nominal revenue 10, 20 and 30 for the years 2020, 2^53 and 2^53 + 1 and
    the rate 0.5 for 2^53 + 1. *)
Lemma rows_of_one_float_year_share_values_witness :
  exists ri rj,
    nth_error [Real.mk 2020 10 10 1 0;
               Real.mk 9007199254740992 20 (20 / 1.5) 1.5 50;
               Real.mk 9007199254740993 30 (20 / 1.5) 1.5 50] 1 = Some ri /\
    nth_error [Real.mk 2020 10 10 1 0;
               Real.mk 9007199254740992 20 (20 / 1.5) 1.5 50;
               Real.mk 9007199254740993 30 (20 / 1.5) 1.5 50] 2 = Some rj /\
    Real.preisindex_destatis ri = Real.preisindex_destatis rj /\
    Real.inflation_kumulativ_destatis ri = Real.inflation_kumulativ_destatis rj /\
    Real.umsatz_real_destatis ri = Real.umsatz_real_destatis rj.
Proof.
  apply (rows_of_one_float_year_share_values
           [Nominal.mk 2020 10; Nominal.mk 9007199254740992 20;
            Nominal.mk 9007199254740993 30]
           [Destatis.mk 9007199254740993 0.5] 2020 _ 1 2
           (Nominal.mk 9007199254740992 20) (Nominal.mk 9007199254740993 30)
           (Destatis.mk 9007199254740993 0.5)).
  - vm_compute. reflexivity.
  - reflexivity.
  - reflexivity.
  - vm_compute. reflexivity.
  - left. reflexivity.
  - vm_compute. reflexivity.
Defined.

(** ** More on the join *)

Lemma matching_unique (right : list Lakner.t) (jahr : Z) :
  NoDup (map Lakner.jahr right) ->
  matching right jahr = [] \/ exists r, matching right jahr = [r].
Proof.
  unfold matching.
  induction right as [|x right IH]; intros Hnd; [now left|].
  cbn in Hnd. apply NoDup_cons_iff in Hnd as [Hx Hnd].
  cbn [filter].
  destruct (Z.eqb_spec (Lakner.jahr x) jahr) as [E|E]; [|now apply IH].
  right. exists x. f_equal.
  apply filter_none. intros y Hy. apply Z.eqb_neq. intros Ey.
  apply Hx. rewrite E, <- Ey. now apply in_map.
Qed.

Lemma flat_map_single {A B : Type} (f : A -> list B) (g : A -> B) (l : list A) :
  (forall x, In x l -> f x = [g x]) -> flat_map f l = map g l.
Proof.
  induction l as [|x l IH]; intros H; [reflexivity|].
  cbn. rewrite (H x (or_introl eq_refl)), IH by (intros y Hy; apply H; now right).
  reflexivity.
Qed.

Lemma merge_left_unique_right (left : list Real.t) (right : list Lakner.t) :
  NoDup (map Lakner.jahr right) ->
  merge_left left right = map (joined_row right) left.
Proof.
  intros Hnd. unfold merge_left. apply flat_map_single.
  intros l _. unfold joined_row.
  destruct (matching_unique right (Real.jahr l) Hnd) as [E|[r E]]; rewrite E;
    reflexivity.
Qed.

(** When the right frame has at most one row per year, the left join has
    exactly one row for every left row, in the order of the left frame: the
    left row joined to the right row of its year, or, when the right frame
    lacks the year, to missing values. *)
Theorem left_join_on_unique_years
    (left : list Real.t) (right : list Lakner.t) :
  NoDup (map Lakner.jahr right) ->
  length (merge_left left right) = length left /\
  forall i l, nth_error left i = Some l ->
    exists c,
      nth_error (merge_left left right) i = Some c /\
      ((forall r, In r right -> Lakner.jahr r <> Real.jahr l) /\
       c = join_row l nan nan nan
       \/
       exists r, In r right /\ Lakner.jahr r = Real.jahr l /\
                 c = join_row l (Lakner.umsatz_real r) (Lakner.preisindex r)
                       (Lakner.inflation_kumulativ r)).
Proof.
  intros Hnd. rewrite (merge_left_unique_right left right Hnd).
  split; [apply length_map|].
  intros i l Hi. exists (joined_row right l).
  split; [now apply map_nth_error|].
  unfold joined_row.
  destruct (matching right (Real.jahr l)) as [|r ms] eqn:E.
  - left. split; [|reflexivity].
    intros r Hr Hj.
    assert (Hin : In r (matching right (Real.jahr l)))
      by (apply matching_spec; auto).
    now rewrite E in Hin.
  - right. exists r.
    assert (Hin : In r (matching right (Real.jahr l))) by (rewrite E; now left).
    apply matching_spec in Hin as [Hin Hj]. auto.
Qed.

Lemma left_join_on_unique_years_witness :
  length (merge_left [Real.mk 2020 10 10 1 0; Real.mk 2021 10.5 10.5 1 0]
                     [Lakner.mk 2020 10 10 1 1 0 nan])
  = length [Real.mk 2020 10 10 1 0; Real.mk 2021 10.5 10.5 1 0] /\
  forall i l,
    nth_error [Real.mk 2020 10 10 1 0; Real.mk 2021 10.5 10.5 1 0] i = Some l ->
    exists c,
      nth_error (merge_left [Real.mk 2020 10 10 1 0; Real.mk 2021 10.5 10.5 1 0]
                            [Lakner.mk 2020 10 10 1 1 0 nan]) i = Some c /\
      ((forall r, In r [Lakner.mk 2020 10 10 1 1 0 nan] ->
                  Lakner.jahr r <> Real.jahr l) /\
       c = join_row l nan nan nan
       \/
       exists r, In r [Lakner.mk 2020 10 10 1 1 0 nan] /\
                 Lakner.jahr r = Real.jahr l /\
                 c = join_row l (Lakner.umsatz_real r) (Lakner.preisindex r)
                       (Lakner.inflation_kumulativ r)).
Proof.
  apply (left_join_on_unique_years
           [Real.mk 2020 10 10 1 0; Real.mk 2021 10.5 10.5 1 0]
           [Lakner.mk 2020 10 10 1 1 0 nan]).
  cbn. repeat constructor. intros [].
Defined.

(** ** [main] as a whole *)

Lemma calculate_inflation_rates_ok_iff (df : list Umsatz.t) (base_year : Z) :
  (exists out, calculate_inflation_rates df base_year = Ok out) <->
  In base_year (map Umsatz.jahr df).
Proof.
  rewrite calculate_inflation_rates_rows. unfold base_year_rows. split.
  - intros [out H].
    destruct (filter _ df) as [|x l] eqn:E; [discriminate|].
    assert (Hx : In x (filter (fun r => Z.eqb (Umsatz.jahr r) base_year) df))
      by (rewrite E; now left).
    apply filter_In in Hx as [Hx Hj]. apply Z.eqb_eq in Hj.
    rewrite <- Hj. now apply in_map.
  - intros H. apply in_map_iff in H as (r & Hj & Hr).
    destruct (iloc0_filter_some (fun x => Z.eqb (Umsatz.jahr x) base_year) df r Hr)
      as (y & -> & _); [now apply Z.eqb_eq|].
    cbn. eauto.
Qed.

Lemma calculate_real_umsatz_ok_iff
    (df_nominal : list Nominal.t) (df_destatis : list Destatis.t) (base_year : Z) :
  Forall float64_exact (map Nominal.jahr df_nominal) ->
  Forall float64_exact (map Destatis.jahr df_destatis) ->
  (exists out,
      calculate_real_umsatz_with_destatis df_nominal df_destatis base_year = Ok out)
  <->
  In base_year (map Nominal.jahr df_nominal) /\
  (forall d, In d df_destatis -> In (Destatis.jahr d) (map Nominal.jahr df_nominal)).
Proof.
  intros Hen Hed.
  assert (Hmem : forall y, (exists n, nominal_at df_nominal y = Ok n)
                           <-> In y (map Nominal.jahr df_nominal)).
  { intros y. rewrite nominal_at_ok_iff, in_map_iff.
    split; intros (r & H1 & H2); exists r; auto. }
  split.
  - intros [out Hout].
    destruct (calculate_real_umsatz_inv _ _ _ _ Hout) as (bn & p & Hb & Hloop).
    split; [apply Hmem; eauto|].
    intros d Hd. apply Hmem.
    destruct (nominal_at_cases df_nominal (Destatis.jahr d)) as [Hn|Hn]; [exact Hn|].
    rewrite (calculate_real_umsatz_missing_exact df_nominal df_destatis base_year d
               Hen (exact_in Destatis.jahr df_destatis d Hed Hd) Hd Hn) in Hout.
    discriminate.
  - intros [Hb Hall]. apply Hmem in Hb as [bn Hb].
    destruct (calculate_real_umsatz_ok_exact df_nominal df_destatis base_year bn
                Hen Hed Hb) as (out & _ & Hout); [|eauto].
    intros d Hd. apply Hmem. now apply Hall.
Qed.

Lemma merge_left_years (left : list Real.t) (right : list Lakner.t) (jahr : Z) :
  In jahr (map Combined.jahr (merge_left left right)) <->
  In jahr (map Real.jahr left).
Proof.
  rewrite !in_map_iff. split.
  - intros (c & Hj & Hc).
    destruct (merge_left_jahr _ _ _ Hc) as (l & Hl & E).
    exists l. split; [congruence|exact Hl].
  - intros (l & Hj & Hl). unfold merge_left.
    destruct (matching right (Real.jahr l)) as [|m ms] eqn:E.
    + exists (join_row l nan nan nan). split; [exact Hj|].
      apply in_flat_map. exists l. split; [exact Hl|]. rewrite E. now left.
    + exists (join_row l (Lakner.umsatz_real m) (Lakner.preisindex m)
                       (Lakner.inflation_kumulativ m)).
      split; [exact Hj|].
      apply in_flat_map. exists l. split; [exact Hl|]. rewrite E. now left.
Qed.

Lemma iloc0_year_ok {A B : Type} (jahr : A -> Z) (col : A -> B) (y : Z) (l : list A) :
  (exists v, iloc0 (map col (filter (fun r => Z.eqb (jahr r) y) l)) = Ok v) <->
  In y (map jahr l).
Proof.
  split.
  - intros [v H].
    destruct (filter _ l) as [|x t] eqn:E; [discriminate|].
    assert (Hx : In x (filter (fun r => Z.eqb (jahr r) y) l)) by (rewrite E; now left).
    apply filter_In in Hx as [Hx Hj]. apply Z.eqb_eq in Hj.
    rewrite <- Hj. now apply in_map.
  - intros H. apply in_map_iff in H as (r & Hj & Hr).
    destruct (iloc0_filter_some (fun x => Z.eqb (jahr x) y) l r Hr)
      as (x & Hx & _); [now apply Z.eqb_eq|].
    destruct (filter _ l); [discriminate|]. cbn. eauto.
Qed.

(** The analysis in [main], that is the two calculations, the merge and the
    closing figures, leaving aside the printing, the plots and the files it
    writes: for years below 2^53 in magnitude it reaches its end exactly
    when the revenue frame has a record for 2020, for 2025 and for the year
    of every rate record. *)
Theorem main_returns_iff (df : list Umsatz.t) (df_destatis : list Destatis.t) :
  Forall float64_exact (map Umsatz.jahr df) ->
  Forall float64_exact (map Destatis.jahr df_destatis) ->
  ((exists a, main df df_destatis = Ok a) <->
   In 2020%Z (map Umsatz.jahr df) /\
   In 2025%Z (map Umsatz.jahr df) /\
   (forall d, In d df_destatis -> In (Destatis.jahr d) (map Umsatz.jahr df))).
Proof.
  intros Hen Hed. unfold main.
  destruct (calculate_inflation_rates df 2020) as [df'|e1] eqn:H1.
  - destruct (calculate_inflation_rates_inv _ _ _ H1) as (base_row & _ & Hrows).
    assert (Hyears : map Nominal.jahr (nominal_columns df') = map Umsatz.jahr df).
    { unfold nominal_columns. rewrite map_map. cbn. rewrite Hrows.
      apply lakner_rows_jahr. }
    assert (Hyears' : map Lakner.jahr df' = map Umsatz.jahr df)
      by (rewrite Hrows; apply lakner_rows_jahr).
    assert (Hen' : Forall float64_exact (map Nominal.jahr (nominal_columns df')))
      by now rewrite Hyears.
    assert (H2020 : In 2020%Z (map Umsatz.jahr df))
      by (apply calculate_inflation_rates_ok_iff; eauto).
    cbn [bind].
    destruct (calculate_real_umsatz_with_destatis (nominal_columns df') df_destatis 2020)
      as [out|e2] eqn:H2; cbn [bind].
    + assert (Hall : forall d, In d df_destatis ->
                               In (Destatis.jahr d) (map Umsatz.jahr df)).
      { rewrite <- Hyears.
        apply (proj1 (calculate_real_umsatz_ok_iff
                        (nominal_columns df') df_destatis 2020 Hen' Hed)).
        eauto. }
      assert (Hout : map Real.jahr out = map Umsatz.jahr df).
      { rewrite <- Hyears.
        destruct (calculate_real_umsatz_rows _ _ _ _ H2) as (bn & _ & Hlen & Hrs).
        apply nth_error_ext. intros i. rewrite !nth_error_map.
        destruct (nth_error (nominal_columns df') i) as [nr|] eqn:Hi.
        - destruct (Hrs i nr Hi) as (r & -> & Hj & _). cbn. now rewrite Hj.
        - apply nth_error_None in Hi.
          rewrite (proj2 (nth_error_None out i)) by lia. reflexivity. }
      destruct (zusaetzliche_erkenntnisse df' (merge_left out df') df_destatis)
        as [erk|e3] eqn:H3; cbn [bind].
      * split; [intros _|eauto].
        split; [exact H2020|]. split; [|exact Hall].
        rewrite <- Hyears'.
        apply (iloc0_year_ok Lakner.jahr Lakner.inflation_kumulativ).
        unfold zusaetzliche_erkenntnisse in H3.
        destruct (iloc0 (map Lakner.inflation_kumulativ _)); [eauto|discriminate].
      * split; [intros [a Ha]; discriminate|].
        intros (_ & H2025 & _). exfalso.
        unfold zusaetzliche_erkenntnisse in H3.
        assert (Ha : exists v,
                   iloc0 (map Lakner.inflation_kumulativ
                            (filter (fun r => Z.eqb (Lakner.jahr r) 2025) df'))
                   = Ok v)
          by (apply iloc0_year_ok; now rewrite Hyears').
        assert (Hb : exists v,
                   iloc0 (map Combined.inflation_kumulativ_destatis
                            (filter (fun r => Z.eqb (Combined.jahr r) 2025)
                                    (merge_left out df')))
                   = Ok v)
          by (apply iloc0_year_ok; apply merge_left_years; now rewrite Hout).
        destruct Ha as [va Ha]; destruct Hb as [vb Hb].
        rewrite Ha in H3. cbn [bind] in H3. rewrite Hb in H3. discriminate.
    + split; [intros [a Ha]; discriminate|].
      intros (_ & _ & Hall). exfalso.
      assert (Hok : exists out,
                 calculate_real_umsatz_with_destatis
                   (nominal_columns df') df_destatis 2020 = Ok out).
      { apply (calculate_real_umsatz_ok_iff _ _ _ Hen' Hed). rewrite Hyears. auto. }
      destruct Hok as [out Hok]. congruence.
  - cbn [bind]. split; [intros [a Ha]; discriminate|].
    intros (H2020 & _). exfalso.
    apply calculate_inflation_rates_ok_iff in H2020 as [out Hout]. congruence.
Qed.

(** Revenue for 2020, 2021 and 2025 with rates for 2021 and 2025. *)
Lemma main_returns_iff_witness :
  (exists a,
      main [Umsatz.mk 2020 10 10; Umsatz.mk 2021 11 10.5; Umsatz.mk 2025 12 10]
           [Destatis.mk 2021 0.03; Destatis.mk 2025 0.1] = Ok a) <->
  In 2020%Z (map Umsatz.jahr
               [Umsatz.mk 2020 10 10; Umsatz.mk 2021 11 10.5; Umsatz.mk 2025 12 10]) /\
  In 2025%Z (map Umsatz.jahr
               [Umsatz.mk 2020 10 10; Umsatz.mk 2021 11 10.5; Umsatz.mk 2025 12 10]) /\
  (forall d, In d [Destatis.mk 2021 0.03; Destatis.mk 2025 0.1] ->
     In (Destatis.jahr d)
        (map Umsatz.jahr
           [Umsatz.mk 2020 10 10; Umsatz.mk 2021 11 10.5; Umsatz.mk 2025 12 10])).
Proof.
  apply (main_returns_iff
           [Umsatz.mk 2020 10 10; Umsatz.mk 2021 11 10.5; Umsatz.mk 2025 12 10]
           [Destatis.mk 2021 0.03; Destatis.mk 2025 0.1]).
  - repeat constructor.
  - repeat constructor.
Defined.

Lemma unique_year_row (right : list Lakner.t) (i : nat) (x r : Lakner.t) :
  NoDup (map Lakner.jahr right) ->
  nth_error right i = Some x ->
  In r right -> Lakner.jahr r = Lakner.jahr x ->
  r = x.
Proof.
  intros Hnd Hi Hr Hj.
  destruct (matching_unique right (Lakner.jahr x) Hnd) as [E|[m E]].
  - assert (Hin : In x (matching right (Lakner.jahr x)))
      by (apply matching_spec; split; [eapply nth_error_In; eauto|reflexivity]).
    now rewrite E in Hin.
  - assert (Hx : In x (matching right (Lakner.jahr x)))
      by (apply matching_spec; split; [eapply nth_error_In; eauto|reflexivity]).
    assert (Hr' : In r (matching right (Lakner.jahr x)))
      by (apply matching_spec; auto).
    rewrite E in Hx, Hr'. destruct Hx as [<-|[]]. destruct Hr' as [<-|[]].
    reflexivity.
Qed.

(** In [main], on a revenue frame with one record per year, the comparison
    is aligned row by row with the input: the joined frame has one row per
    input row, in input order, and row [i] carries the year, the nominal and
    the real revenue of input row [i] together with the price index and the
    cumulative inflation computed for it.  No joined row holds a filled-in
    missing value. *)
Theorem main_comparison_is_aligned
    (df : list Umsatz.t) (df_destatis : list Destatis.t) (a : Analyse) :
  NoDup (map Umsatz.jahr df) ->
  main df df_destatis = Ok a ->
  length (analyse_combined a) = length df /\
  forall i r, nth_error df i = Some r ->
    exists c l,
      nth_error (analyse_combined a) i = Some c /\
      nth_error (analyse_df a) i = Some l /\
      Combined.jahr c = Umsatz.jahr r /\
      Combined.umsatz_nominal c = Umsatz.umsatz_nominal r /\
      Combined.umsatz_real c = Umsatz.umsatz_real r /\
      Combined.preisindex c = Lakner.preisindex l /\
      Combined.inflation_kumulativ c = Lakner.inflation_kumulativ l.
Proof.
  intros Hnd Hmain. unfold main in Hmain.
  destruct (calculate_inflation_rates df 2020) as [df'|e] eqn:H1; [|discriminate].
  cbn [bind] in Hmain.
  destruct (calculate_real_umsatz_with_destatis (nominal_columns df') df_destatis 2020)
    as [out|e] eqn:H2; [|discriminate].
  cbn [bind] in Hmain.
  destruct (zusaetzliche_erkenntnisse _ _ _) as [erk|e]; [|discriminate].
  cbn [bind] in Hmain. injection Hmain as <-. cbn [analyse_combined analyse_df].
  destruct (calculate_inflation_rates_inv _ _ _ H1) as (base_row & _ & Hrows).
  assert (Hyears : map Lakner.jahr df' = map Umsatz.jahr df)
    by (rewrite Hrows; apply lakner_rows_jahr).
  assert (Hnd' : NoDup (map Lakner.jahr df')) by now rewrite Hyears.
  destruct (calculate_real_umsatz_rows _ _ _ _ H2) as (bn & _ & Hlen & Hrs).
  rewrite (merge_left_unique_right out df' Hnd'). split.
  - rewrite length_map, Hlen. unfold nominal_columns.
    rewrite length_map, Hrows. apply lakner_rows_length.
  - intros i r Hi.
    destruct (lakner_rows_nth (price_ratio base_row) df nan i r Hi)
      as (l & Hl & Hlj & Hln & Hlr & _).
    rewrite <- Hrows in Hl.
    assert (Hnom : nth_error (nominal_columns df') i
                   = Some (Nominal.mk (Lakner.jahr l) (Lakner.umsatz_nominal l)))
      by (unfold nominal_columns; rewrite nth_error_map, Hl; reflexivity).
    destruct (Hrs i _ Hnom) as (o & Ho & Hoj & Hon & _). cbn in Hoj, Hon.
    exists (joined_row df' o), l.
    split; [now apply map_nth_error|]. split; [exact Hl|].
    unfold joined_row.
    destruct (matching df' (Real.jahr o)) as [|m ms] eqn:E.
    + exfalso.
      assert (Hin : In l (matching df' (Real.jahr o)))
        by (apply matching_spec; split; [eapply nth_error_In; eauto|congruence]).
      now rewrite E in Hin.
    + assert (Hm : In m (matching df' (Real.jahr o))) by (rewrite E; now left).
      apply matching_spec in Hm as [Hm Hmj].
      assert (m = l)
        by (apply (unique_year_row df' i l m Hnd' Hl Hm); congruence).
      subst m. cbn. repeat split; congruence.
Qed.

Lemma main_comparison_is_aligned_witness :
  exists a,
    main [Umsatz.mk 2020 10 10; Umsatz.mk 2025 12 10] [Destatis.mk 2025 0.1] = Ok a /\
    length (analyse_combined a) = 2%nat /\
    forall i r,
      nth_error [Umsatz.mk 2020 10 10; Umsatz.mk 2025 12 10] i = Some r ->
      exists c l,
        nth_error (analyse_combined a) i = Some c /\
        nth_error (analyse_df a) i = Some l /\
        Combined.jahr c = Umsatz.jahr r /\
        Combined.umsatz_nominal c = Umsatz.umsatz_nominal r /\
        Combined.umsatz_real c = Umsatz.umsatz_real r /\
        Combined.preisindex c = Lakner.preisindex l /\
        Combined.inflation_kumulativ c = Lakner.inflation_kumulativ l.
Proof.
  destruct (main [Umsatz.mk 2020 10 10; Umsatz.mk 2025 12 10] [Destatis.mk 2025 0.1])
    as [a|e] eqn:E; [|vm_compute in E; discriminate E].
  exists a. split; [reflexivity|].
  apply (main_comparison_is_aligned
           [Umsatz.mk 2020 10 10; Umsatz.mk 2025 12 10] [Destatis.mk 2025 0.1] a).
  - cbn. repeat constructor; cbn; intuition lia.
  - exact E.
Defined.

(** ** [load_data] *)

Lemma load_data_in (df_nominal : list Nominal.t) (df_real : list Realwerte.t)
    (u : Umsatz.t) :
  In u (load_data df_nominal df_real) <->
  exists n r,
    In n df_nominal /\ In r df_real /\ Realwerte.jahr r = Nominal.jahr n /\
    u = Umsatz.mk (Nominal.jahr n) (Nominal.umsatz_nominal n) (Realwerte.umsatz_real r).
Proof.
  unfold load_data. rewrite in_flat_map. split.
  - intros (n & Hn & Hu). apply in_map_iff in Hu as (r & <- & Hr).
    apply filter_In in Hr as [Hr Hj]. apply Z.eqb_eq in Hj.
    exists n, r. auto.
  - intros (n & r & Hn & Hr & Hj & ->). exists n. split; [exact Hn|].
    apply in_map_iff. exists r. split; [reflexivity|].
    apply filter_In. split; [exact Hr|]. now apply Z.eqb_eq.
Qed.

Lemma real_matching_unique (df_real : list Realwerte.t) (jahr : Z) :
  NoDup (map Realwerte.jahr df_real) ->
  In jahr (map Realwerte.jahr df_real) ->
  exists r, filter (fun r => Z.eqb (Realwerte.jahr r) jahr) df_real = [r].
Proof.
  induction df_real as [|x l IH]; intros Hnd Hin; [contradiction|].
  cbn in Hnd. apply NoDup_cons_iff in Hnd as [Hx Hnd].
  cbn [filter].
  destruct (Z.eqb_spec (Realwerte.jahr x) jahr) as [E|E].
  - exists x. f_equal. apply filter_none. intros y Hy. apply Z.eqb_neq.
    intros Ey. apply Hx. rewrite E, <- Ey. now apply in_map.
  - apply IH; [exact Hnd|]. destruct Hin as [Hin|Hin]; [contradiction|exact Hin].
Qed.

(** [load_data] keeps exactly the years that both files have: every merged
    row has its year in both frames, and every year of both frames has a
    merged row, so a year that only one file has is dropped without an
    error.  When the real file has one row per year and covers every year
    of the nominal file, the merged frame has the rows of the nominal file,
    in its order. *)
Theorem load_data_keeps_common_years
    (df_nominal : list Nominal.t) (df_real : list Realwerte.t) :
  (forall jahr,
      In jahr (map Umsatz.jahr (load_data df_nominal df_real)) <->
      In jahr (map Nominal.jahr df_nominal) /\ In jahr (map Realwerte.jahr df_real)) /\
  (NoDup (map Realwerte.jahr df_real) ->
   (forall n, In n df_nominal -> In (Nominal.jahr n) (map Realwerte.jahr df_real)) ->
   map Umsatz.jahr (load_data df_nominal df_real) = map Nominal.jahr df_nominal /\
   map Umsatz.umsatz_nominal (load_data df_nominal df_real)
   = map Nominal.umsatz_nominal df_nominal).
Proof.
  split.
  - intros jahr. rewrite !in_map_iff. split.
    + intros (u & Hj & Hu). apply load_data_in in Hu as (n & r & Hn & Hr & E & ->).
      cbn in Hj. split; [exists n|exists r]; split; auto; congruence.
    + intros [(n & Hj & Hn) (r & Hjr & Hr)].
      exists (Umsatz.mk (Nominal.jahr n) (Nominal.umsatz_nominal n)
                        (Realwerte.umsatz_real r)).
      split; [exact Hj|]. apply load_data_in. exists n, r.
      repeat split; auto; congruence.
  - intros Hnd Hall. unfold load_data.
    induction df_nominal as [|n df_nominal IH]; [split; reflexivity|].
    cbn [flat_map map].
    destruct (real_matching_unique df_real (Nominal.jahr n) Hnd
                (Hall n (or_introl eq_refl))) as [r ->].
    cbn [map app].
    destruct IH as [IH1 IH2]; [intros x Hx; apply Hall; now right|].
    now rewrite IH1, IH2.
Qed.

Lemma load_data_keeps_common_years_witness :
  map Umsatz.jahr
    (load_data [Nominal.mk 2020 10; Nominal.mk 2021 11]
               [Realwerte.mk 2021 10.5; Realwerte.mk 2020 10; Realwerte.mk 2022 12])
  = map Nominal.jahr [Nominal.mk 2020 10; Nominal.mk 2021 11] /\
  map Umsatz.umsatz_nominal
    (load_data [Nominal.mk 2020 10; Nominal.mk 2021 11]
               [Realwerte.mk 2021 10.5; Realwerte.mk 2020 10; Realwerte.mk 2022 12])
  = map Nominal.umsatz_nominal [Nominal.mk 2020 10; Nominal.mk 2021 11].
Proof.
  apply (proj2 (load_data_keeps_common_years
                  [Nominal.mk 2020 10; Nominal.mk 2021 11]
                  [Realwerte.mk 2021 10.5; Realwerte.mk 2020 10; Realwerte.mk 2022 12])).
  - cbn. repeat constructor; cbn; intuition lia.
  - intros n [<-|[<-|[]]]; cbn; auto.
Defined.

(** A base year that one of the two revenue files lacks never reaches the
    analysis: [main], run on the merged frame, reports [IndexError]. *)
Theorem main_needs_2020_in_both_files
    (df_nominal : list Nominal.t) (df_real : list Realwerte.t)
    (df_destatis : list Destatis.t) :
  ~ In 2020%Z (map Nominal.jahr df_nominal) \/
  ~ In 2020%Z (map Realwerte.jahr df_real) ->
  main (load_data df_nominal df_real) df_destatis = Raise IndexError.
Proof.
  intros H.
  assert (Hno : forall u, In u (load_data df_nominal df_real) ->
                          Z.eqb (Umsatz.jahr u) 2020 = false).
  { intros u Hu. apply Z.eqb_neq. intros E.
    apply load_data_in in Hu as (n & r & Hn & Hr & Hj & ->). cbn in E.
    destruct H as [H|H]; apply H; apply in_map_iff.
    - exists n. auto.
    - exists r. split; [congruence|exact Hr]. }
  unfold main. rewrite calculate_inflation_rates_rows. unfold base_year_rows.
  now rewrite (filter_none _ _ Hno).
Qed.

Lemma main_needs_2020_in_both_files_witness :
  main (load_data [Nominal.mk 2020 10; Nominal.mk 2021 11] [Realwerte.mk 2021 10.5])
       [Destatis.mk 2021 0.03]
  = Raise IndexError.
Proof.
  apply main_needs_2020_in_both_files.
  right. cbn. intros [H|[]]. discriminate H.
Defined.

(** ** Calling [calculate_inflation_rates] again *)

Lemma store_set_present (s : Store) (p : ref) (o : DataFrame) :
  nth_error s p = Some o -> store_set s p o = s.
Proof.
  revert p. induction s as [|x s IH]; intros [|p] H; cbn in *; try discriminate.
  - now injection H as ->.
  - now rewrite IH.
Qed.

(** The columns the function assigns depend only on the three columns it
    reads: a second call on the frame the first call returned assigns the
    same values and leaves the store as the first call left it. *)
Theorem calculate_inflation_rates_again
    (s s1 : Store) (df p : ref) (base_year : Z) (rows : list Umsatz.t) :
  nth_error s df = Some (FrameUmsatz rows) ->
  call_calculate_inflation_rates s df base_year = Ok (s1, p) ->
  call_calculate_inflation_rates s1 p base_year = Ok (s1, p).
Proof.
  intros Hdf H. unfold call_calculate_inflation_rates in H. rewrite Hdf in H.
  destruct (calculate_inflation_rates rows base_year) as [rows'|e] eqn:E;
    [|discriminate].
  cbn [bind] in H. injection H as <- <-.
  assert (Hlt : (df < length s)%nat) by (apply nth_error_Some; congruence).
  unfold call_calculate_inflation_rates.
  rewrite (store_set_same s df _ Hlt).
  assert (Hcols : umsatz_columns rows' = rows).
  { destruct (calculate_inflation_rates_inv _ _ _ E) as (b & _ & ->).
    apply umsatz_columns_rows. }
  rewrite Hcols, E. cbn [bind].
  rewrite store_set_present; [reflexivity|].
  now apply store_set_same.
Qed.

Lemma calculate_inflation_rates_again_witness :
  call_calculate_inflation_rates
    [FrameLakner (lakner_rows 1 nan [Umsatz.mk 2020 10 10; Umsatz.mk 2021 11 10.5])]
    0%nat 2020
  = Ok ([FrameLakner
           (lakner_rows 1 nan [Umsatz.mk 2020 10 10; Umsatz.mk 2021 11 10.5])],
        0%nat).
Proof.
  apply (calculate_inflation_rates_again
           [FrameUmsatz [Umsatz.mk 2020 10 10; Umsatz.mk 2021 11 10.5]]
           _ 0%nat 0%nat 2020 [Umsatz.mk 2020 10 10; Umsatz.mk 2021 11 10.5]).
  - reflexivity.
  - vm_compute. reflexivity.
Defined.
